(** * chef/benchmark_plot.py: aggregation of benchmark timings and the grouped bar chart

    A shallow embedding of [benchmark_plot.py].  The script has three
    functions, [process_benchmark_data], [create_bar_chart] and [main]; each is
    translated below under its own name.  The pandas, pathlib, seaborn and
    pyplot calls the script makes are embedded in the modules [pd],
    [pathlib], [sns] and [plt].

    Modelling conventions
    - a float is an exact rational ([Q]); rounding is not modelled;
    - a missing cell (pandas' NaN) is [None];
    - the two key columns hold strings and the runtime column holds numbers,
      as the input format of the script has it (string, string, float); a
      [DataFrame] lists the columns it has, and a column other than the
      three the script reads plays no role;
    - [pd.read_csv] is a lookup in a file system that maps a path to the
      table read from it ([None] when reading raises);
    - [plt.savefig] takes the format from the extension of the path, as
      matplotlib does, and raises when pyplot does not write the format or
      when the file cannot be written; which files can be written is part
      of the state ([writable]), and [FileWriteError] stands for the error
      the operating system raises;
    - the message of an exception is indicative: no property depends on it;
    - pyplot's global state is an explicit [World], threaded through a state
      and exception monad; an exception leaves the state as it was when it
      was raised. *)

From Stdlib Require Import QArith Ascii OrderedTypeEx Sorted.
From stdpp Require Import base option list sets strings.

Local Open Scope string_scope.
Set Warnings "-clear-no-such-hyp".

(** ** Exceptions and results *)

Inductive exn :=
| FileReadError (path : string)
| ValueError (msg : string)
| KeyError (col : string)
| TypeError
| ZeroDivisionError
| FileWriteError (path : string).

Inductive result (A : Type) :=
| Ok (a : A)
| Raise (e : exn).
Arguments Ok {A} a.
Arguments Raise {A} e.

#[global] Instance result_ret : MRet result := fun A a => Ok a.

#[global] Instance result_bind : MBind result := fun A B k r =>
  match r with
  | Ok a => k a
  | Raise e => Raise e
  end.

#[global] Instance result_fmap : FMap result := fun A B f r =>
  match r with
  | Ok a => Ok (f a)
  | Raise e => Raise e
  end.

Fixpoint collect {A B} (f : A → result B) (l : list A) : result (list B) :=
  match l with
  | [] => Ok []
  | a :: l' => b ← f a ; bs ← collect f l' ; Ok (b :: bs)
  end.

(** ** Tables *)

Definition NaN {A} : option A := None.

Record Row := mkRow {
  Binary : option string;
  Benchmark_File : option string;
  Runtime : option Q
}.

Record DataFrame := mkDataFrame {
  columns : list string;
  rows : list Row
}.

Definition col_Binary : string := "Binary".
Definition col_Benchmark_File : string := "Benchmark File".
Definition col_Runtime : string := "Runtime (s)".

Definition required_columns : list string :=
  [col_Binary; col_Benchmark_File; col_Runtime].

Definition has_column (cols : list string) (c : string) : bool :=
  bool_decide (c ∈ cols).

(** A row seen through the columns of its table: a cell of a column the table
    does not have is missing. *)
Definition reindex (cols : list string) (r : Row) : Row :=
  {| Binary := if has_column cols col_Binary then Binary r else NaN;
     Benchmark_File :=
       if has_column cols col_Benchmark_File then Benchmark_File r else NaN;
     Runtime := if has_column cols col_Runtime then Runtime r else NaN |}.

Definition frame_rows (df : DataFrame) : list Row :=
  map (reindex (columns df)) (rows df).

(** [Series.unique()]: the distinct values in order of first appearance. *)
Definition unique_step `{EqDecision A} (seen : list A) (x : A) : list A :=
  if bool_decide (x ∈ seen) then seen else seen ++ [x].

Definition unique `{EqDecision A} (l : list A) : list A :=
  foldl unique_step [] l.

(** ** Keys and their order *)

Abbreviation key := (string * string)%type.

Definition row_key (r : Row) : option key :=
  match Binary r, Benchmark_File r with
  | Some b, Some f => Some (b, f)
  | _, _ => None
  end.

Definition key_compare (a b : key) : comparison :=
  match String.compare a.1 b.1 with
  | Eq => String.compare a.2 b.2
  | c => c
  end.

Definition key_lt (a b : key) : Prop := key_compare a b = Lt.

Fixpoint insert_key (k : key) (l : list key) : list key :=
  match l with
  | [] => [k]
  | k' :: l' =>
      match key_compare k k' with
      | Lt => k :: l
      | Eq => l
      | Gt => k' :: insert_key k l'
      end
  end.

(** The group index of [groupby(..., sort=True)]: the observed keys, each
    once, in ascending order. *)
Definition sorted_uniques (ks : list key) : list key :=
  foldl (fun acc k => insert_key k acc) [] ks.

(** ** pandas *)

Module pd.

Definition file_system : Type := string → option DataFrame.

Definition read_csv (fs : file_system) (path : string) : result DataFrame :=
  match fs path with
  | Some df => Ok df
  | None => Raise (FileReadError path)
  end.

(** [pd.concat(dfs, ignore_index=True)]: the outer join on the columns, the
    rows of the tables one after the other. *)
Definition concat (dfs : list DataFrame) : result DataFrame :=
  match dfs with
  | [] => Raise (ValueError "No objects to concatenate")
  | _ =>
      Ok {| columns := unique (flat_map columns dfs);
            rows := flat_map frame_rows dfs |}
  end.

(** The code of a row in the group index; [None] is pandas' label -1 of a
    row with a missing key, which [dropna=True] leaves out. *)
Definition label_of (index : list key) (r : Row) : option nat :=
  k ← row_key r; fst <$> list_find (k =.) index.

Definition mean_step (acc : list (Q * nat)) (lv : option nat * option Q)
  : list (Q * nat) :=
  match lv with
  | (Some lab, Some val) =>
      alter (fun sn => ((sn.1 + val)%Q, S sn.2)) lab acc
  | _ => acc
  end.

Definition mean_out (sn : Q * nat) : option Q :=
  match sn.2 with
  | O => NaN
  | S _ => Some (sn.1 / inject_Z (Z.of_nat sn.2))%Q
  end.

(** The grouped mean: one pass over the rows adds each present value to
    the sum of its group and counts it, then each sum is divided by its
    count; a group without a value has a missing mean. *)
Definition group_mean (labels : list (option nat)) (values : list (option Q))
    (ngroups : nat) : list (option Q) :=
  map mean_out
    (foldl mean_step (replicate ngroups (0%Q, 0%nat)) (zip labels values)).

(** [df.groupby(['Binary', 'Benchmark File'])['Runtime (s)'].mean().reset_index()] *)
Definition groupby_mean (df : DataFrame) : result DataFrame :=
  if negb (has_column (columns df) col_Binary) then
    Raise (KeyError col_Binary)
  else if negb (has_column (columns df) col_Benchmark_File) then
    Raise (KeyError col_Benchmark_File)
  else if negb (has_column (columns df) col_Runtime) then
    Raise (KeyError col_Runtime)
  else
    let rs := rows df in
    let index := sorted_uniques (omap row_key rs) in
    let means :=
      group_mean (map (label_of index) rs) (map Runtime rs) (length index) in
    Ok {| columns := required_columns;
          rows := zip_with (fun k m => mkRow (Some k.1) (Some k.2) m)
                    index means |}.

End pd.

(** ** process_benchmark_data *)

Definition process_benchmark_data (fs : pd.file_system)
    (file_paths : list string) : result DataFrame :=
  dfs ← collect (pd.read_csv fs) file_paths ;
  combined_df ← pd.concat dfs ;
  avg_runtime ← pd.groupby_mean combined_df ;
  Ok avg_runtime.

(** ** pathlib (POSIX flavour, Python 3.12) *)

Module pathlib.

(** [s.split('/')] *)
Fixpoint split_sep (s : string) : list string :=
  match s with
  | "" => [""]
  | String c s' =>
      if Ascii.eqb c "/"%char then "" :: split_sep s'
      else match split_sep s' with
           | x :: xs => String c x :: xs
           | [] => [String c ""]
           end
  end.

(** The tail of the parsed path: the components that are neither empty nor
    a single dot.  The root, when there is one, is made of separators only
    and adds no component. *)
Definition parts (path : string) : list string :=
  filter (fun x => x ≠ "" ∧ x ≠ ".") (split_sep path).

Definition name (path : string) : string := default "" (last (parts path)).

(** [s.rfind(c)], [None] for -1 *)
Fixpoint rfind (c : Ascii.ascii) (s : string) : option nat :=
  match s with
  | "" => None
  | String a s' =>
      match rfind c s' with
      | Some i => Some (S i)
      | None => if Ascii.eqb a c then Some 0%nat else None
      end
  end.

(** [0 < i < len(name) - 1] *)
Definition splits_suffix (i : option nat) (n : string) : option nat :=
  match i with
  | Some i =>
      if bool_decide (0 < i)%nat && bool_decide (i < String.length n - 1)%nat
      then Some i else None
  | None => None
  end.

Definition suffix (path : string) : string :=
  let n := name path in
  match splits_suffix (rfind "."%char n) n with
  | Some i => String.substring i (String.length n - i) n
  | None => ""
  end.

Definition stem (path : string) : string :=
  let n := name path in
  match splits_suffix (rfind "."%char n) n with
  | Some i => String.substring 0 i n
  | None => n
  end.

(** [Path(x)] of a cell: a missing cell is a float and is refused. *)
Definition Path (x : option string) : result string :=
  match x with
  | Some s => Ok s
  | None => Raise TypeError
  end.

End pathlib.

(** ** os.path and str *)

Module os_path.

Fixpoint only_dots (s : string) : bool :=
  match s with
  | "" => true
  | String c s' => Ascii.eqb c "."%char && only_dots s'
  end.

(** [os.path.splitext(p)]: the extension starts at the last dot of the last
    component, unless nothing but dots comes before that dot in the
    component. *)
Definition splitext (p : string) : string * string :=
  match pathlib.rfind "."%char p with
  | Some dotIndex =>
      let filenameIndex :=
        match pathlib.rfind "/"%char p with
        | Some sepIndex => S sepIndex
        | None => 0%nat
        end in
      if bool_decide (filenameIndex ≤ dotIndex)%nat &&
         negb (only_dots
                 (String.substring filenameIndex (dotIndex - filenameIndex) p))
      then (String.substring 0 dotIndex p,
            String.substring dotIndex (String.length p - dotIndex) p)
      else (p, "")
  | None => (p, "")
  end.

End os_path.

(** [s.lower()] on the letters of ASCII, the letters of the formats pyplot
    writes. *)
Definition lower_ascii (c : Ascii.ascii) : Ascii.ascii :=
  let n := Ascii.nat_of_ascii c in
  if bool_decide (65 ≤ n ≤ 90)%nat then Ascii.ascii_of_nat (n + 32) else c.

Fixpoint lower (s : string) : string :=
  match s with
  | "" => ""
  | String c s' => String (lower_ascii c) (lower s')
  end.

(** [s.rstrip('.')] *)
Fixpoint rstrip_dots (s : string) : string :=
  match s with
  | "" => ""
  | String c s' =>
      match rstrip_dots s' with
      | "" => if Ascii.eqb c "."%char then "" else String c ""
      | t => String c t
      end
  end.

(** ** The drawing state *)

Record Rectangle := mkRectangle {
  rect_x : Q;                  (* centre of the bar on the x axis *)
  rect_height : option Q;
  rect_width : Q
}.

Record BarContainer := mkBarContainer {
  patches : list Rectangle;
  label : string
}.

Record Figure := mkFigure {
  figsize : Z * Z;
  containers : list BarContainer;
  fig_xlabel : string;
  fig_ylabel : string;
  fig_title : string;
  fig_xticks : option (list (nat * string));
  fig_xticks_rotation : Z;
  fig_legend : option (list string);
  fig_tight : bool
}.

Record World := mkWorld {
  style : option string;
  palette : option string;
  figures : list Figure;                 (* the current figure is the head *)
  written : list (string * Figure);      (* image files written, in order *)
  displayed : list (list Figure);        (* interactive displays opened *)
  stdout : list string;                  (* lines printed *)
  writable : string → bool               (* whether an image file can be
                                            written at a path *)
}.

Definition empty_figure (size : Z * Z) : Figure :=
  mkFigure size [] "" "" "" None 0 None false.

(** Whether a string holds the separator of paths. *)
Fixpoint has_sep (s : string) : bool :=
  match s with
  | "" => false
  | String c s' => Ascii.eqb c "/"%char || has_sep s'
  end.

(** A fresh interpreter in a directory without sub-directories, in which
    every file can be written. *)
Definition initial_world : World :=
  mkWorld None None [] [] [] [] (fun p => negb (has_sep p)).

(** The state and exception monad of the script. *)
Definition M (A : Type) : Type := World → World * result A.

#[global] Instance M_ret : MRet M := fun A a w => (w, Ok a).

#[global] Instance M_bind : MBind M := fun A B k m w =>
  match m w with
  | (w', Ok a) => k a w'
  | (w', Raise e) => (w', Raise e)
  end.

Definition lift {A} (r : result A) : M A := fun w => (w, r).

Definition modify (f : World → World) : M unit := fun w => (f w, Ok tt).

Fixpoint for_each {A} (body : A → M unit) (l : list A) : M unit :=
  match l with
  | [] => mret tt
  | a :: l' => body a ;; for_each body l'
  end.

Definition enumerate {A} (l : list A) : list (nat * A) :=
  zip (seq 0 (length l)) l.

Definition print (line : string) : M unit :=
  modify (fun w =>
    mkWorld (style w) (palette w) (figures w) (written w) (displayed w)
            (stdout w ++ [line]) (writable w)).

(** ** seaborn and pyplot *)

Module sns.

Definition set_palette (p : string) : M unit :=
  modify (fun w =>
    mkWorld (style w) (Some p) (figures w) (written w) (displayed w)
            (stdout w) (writable w)).

End sns.

Module plt.

Definition style_use (s : string) : M unit :=
  modify (fun w =>
    mkWorld (Some s) (palette w) (figures w) (written w) (displayed w)
            (stdout w) (writable w)).

(** [plt.figure(figsize=...)]: a new figure, which becomes the current one. *)
Definition figure (size : Z * Z) : M unit :=
  modify (fun w =>
    mkWorld (style w) (palette w) (empty_figure size :: figures w)
            (written w) (displayed w) (stdout w) (writable w)).

(** The current figure; pyplot makes one when there is none. *)
Definition gcf (w : World) : Figure :=
  match figures w with
  | f :: _ => f
  | [] => empty_figure (6, 4)%Z
  end.

Definition on_current (f : Figure → Figure) : M unit :=
  modify (fun w =>
    mkWorld (style w) (palette w) (f (gcf w) :: tail (figures w))
            (written w) (displayed w) (stdout w) (writable w)).

(** numpy's rule for two one-dimensional shapes. *)
Definition broadcast (n m : nat) : option nat :=
  if bool_decide (n = m) then Some n
  else if bool_decide (n = 1%nat) then Some m
  else if bool_decide (m = 1%nat) then Some n
  else None.

Definition broadcast_to {A} (n : nat) (l : list A) : list A :=
  match l with
  | [a] => replicate n a
  | _ => l
  end.

(** The rectangles of [plt.bar(x, height, width, label=label)]: [x] and
    [height] are broadcast against each other, one rectangle per position,
    centred on it; the container of the rectangles carries the label. *)
Definition bar_container (x : list Q) (height : list (option Q)) (width : Q)
    (lbl : string) : result BarContainer :=
  match broadcast (length x) (length height) with
  | None =>
      Raise (ValueError
        "shape mismatch: objects cannot be broadcast to a single shape")
  | Some n =>
      Ok (mkBarContainer
            (zip_with (fun p h => mkRectangle p h width)
               (broadcast_to n x) (broadcast_to n height))
            lbl)
  end.

Definition add_container (c : BarContainer) (f : Figure) : Figure :=
  mkFigure (figsize f) (containers f ++ [c]) (fig_xlabel f) (fig_ylabel f)
    (fig_title f) (fig_xticks f) (fig_xticks_rotation f) (fig_legend f)
    (fig_tight f).

(** [plt.bar]: the container is added to the current figure and returned. *)
Definition bar (x : list Q) (height : list (option Q)) (width : Q)
    (lbl : string) : M BarContainer :=
  c ← lift (bar_container x height width lbl);
  on_current (add_container c) ;;
  mret c.

Definition xlabel (s : string) : M unit :=
  on_current (fun f =>
    mkFigure (figsize f) (containers f) s (fig_ylabel f) (fig_title f)
      (fig_xticks f) (fig_xticks_rotation f) (fig_legend f) (fig_tight f)).

Definition ylabel (s : string) : M unit :=
  on_current (fun f =>
    mkFigure (figsize f) (containers f) (fig_xlabel f) s (fig_title f)
      (fig_xticks f) (fig_xticks_rotation f) (fig_legend f) (fig_tight f)).

Definition title (s : string) : M unit :=
  on_current (fun f =>
    mkFigure (figsize f) (containers f) (fig_xlabel f) (fig_ylabel f) s
      (fig_xticks f) (fig_xticks_rotation f) (fig_legend f) (fig_tight f)).

Definition xticks (ticks : list nat) (labels : list string)
    (rotation : Z) : M unit :=
  if bool_decide (length ticks = length labels) then
    on_current (fun f =>
      mkFigure (figsize f) (containers f) (fig_xlabel f) (fig_ylabel f)
        (fig_title f) (Some (zip ticks labels)) rotation (fig_legend f)
        (fig_tight f))
  else
    lift (Raise (ValueError "The number of ticks does not match the labels")).

(** A container is listed in the legend unless its label is empty or
    starts with an underscore. *)
Definition in_legend (lbl : string) : bool :=
  match lbl with
  | "" => false
  | String c _ => negb (Ascii.eqb c "_"%char)
  end.

Definition legend : M unit :=
  on_current (fun f =>
    mkFigure (figsize f) (containers f) (fig_xlabel f) (fig_ylabel f)
      (fig_title f) (fig_xticks f) (fig_xticks_rotation f)
      (Some (filter in_legend (map label (containers f)))) (fig_tight f)).

Definition tight_layout : M unit :=
  on_current (fun f =>
    mkFigure (figsize f) (containers f) (fig_xlabel f) (fig_ylabel f)
      (fig_title f) (fig_xticks f) (fig_xticks_rotation f) (fig_legend f)
      true).

(** The formats pyplot can write. *)
Definition supported_filetypes : list string :=
  ["eps"; "jpeg"; "jpg"; "pdf"; "pgf"; "png"; "ps"; "raw"; "rgba"; "svg";
   "svgz"; "tif"; "tiff"; "webp"].

(** The format [savefig] writes and the file it writes to.  The format is
    the extension of the path without its dot, in lower case; a path without
    an extension is written as png, to the path with its trailing dots
    stripped and [.png] appended. *)
Definition extension (path : string) : string :=
  match (os_path.splitext path).2 with
  | "" => ""
  | String _ fmt => fmt
  end.

Definition image_format (path : string) : string :=
  if bool_decide (extension path = "") then "png"
  else lower (extension path).

Definition image_path (path : string) : string :=
  if bool_decide (extension path = "") then rstrip_dots path +:+ ".png"
  else path.

(** The exception [savefig(path)] raises: ValueError for a format pyplot
    cannot write, and the error of the operating system when the file cannot
    be written. *)
Definition save_error (w : World) (path : string) : option exn :=
  if bool_decide (image_format path ∈ supported_filetypes) then
    if writable w (image_path path) then None
    else Some (FileWriteError (image_path path))
  else
    Some (ValueError
            ("Format '" +:+ image_format path +:+
             "' is not supported (supported formats: eps, jpeg, jpg, pdf, " +:+
             "pgf, png, ps, raw, rgba, svg, svgz, tif, tiff, webp)")).

(** [plt.savefig(path)]: the current figure is written to the file of the
    path, unless the format is refused or the file cannot be written. *)
Definition savefig (path : string) : M unit := fun w =>
  match save_error w path with
  | Some e => (w, Raise e)
  | None =>
      (mkWorld (style w) (palette w) (figures w)
         (written w ++ [(image_path path, gcf w)]) (displayed w) (stdout w)
         (writable w),
       Ok tt)
  end.

Definition show : M unit :=
  modify (fun w =>
    mkWorld (style w) (palette w) (figures w) (written w)
            (displayed w ++ [figures w]) (stdout w) (writable w)).

End plt.

(** ** create_bar_chart *)

(** [df[c]] for a column [c] whose cells are read by [cell]. *)
Definition getitem {A} (cell : Row → option A) (c : string) (df : DataFrame)
    : result (list (option A)) :=
  if has_column (columns df) c then Ok (map cell (rows df))
  else Raise (KeyError c).

(** [x == y] on cells: a missing cell equals nothing, itself included. *)
Definition cell_eqb (x y : option string) : bool :=
  match x, y with
  | Some a, Some b => bool_decide (a = b)
  | _, _ => false
  end.

(** [data[data['Binary'] == binary]] *)
Definition select_binary (data : DataFrame) (binary : option string)
    : DataFrame :=
  {| columns := columns data;
     rows := filter (fun r => cell_eqb (Binary r) binary) (rows data) |}.

(** [0.8 / n] *)
Definition truediv (x : Q) (n : nat) : result Q :=
  match n with
  | O => Raise ZeroDivisionError
  | S _ => Ok (x / inject_Z (Z.of_nat n))%Q
  end.

(** The truth value of [output_path]: [None] and the empty string are false. *)
Definition truthy (output_path : option string) : option string :=
  match output_path with
  | Some "" => None
  | other => other
  end.

Definition bar_position (bar_width : Q) (i p : nat) : Q :=
  (inject_Z (Z.of_nat p) + inject_Z (Z.of_nat i) * bar_width)%Q.

Definition draw_binary (data : DataFrame) (benchmarks : list (option string))
    (bar_width : Q) (ib : nat * option string) : M unit :=
  let binary_data := select_binary data ib.2 in
  let positions := seq 0 (length benchmarks) in
  heights ← lift (getitem Runtime col_Runtime binary_data);
  lbl ← lift (pathlib.name <$> pathlib.Path ib.2);
  plt.bar (map (bar_position bar_width ib.1) positions) heights bar_width lbl ;;
  mret tt.

Definition create_bar_chart (data : DataFrame) (output_path : option string)
    : M unit :=
  plt.style_use "seaborn-v0_8" ;;
  sns.set_palette "husl" ;;
  plt.figure (12, 6)%Z ;;
  benchmarks ← lift (unique <$> getitem Benchmark_File col_Benchmark_File data);
  binaries ← lift (unique <$> getitem Binary col_Binary data);
  bar_width ← lift (truediv (8 # 10) (length binaries));
  for_each (draw_binary data benchmarks bar_width) (enumerate binaries) ;;
  plt.xlabel "Benchmark" ;;
  plt.ylabel "Average Runtime (seconds)" ;;
  plt.title "Benchmark Performance Comparison" ;;
  ticklabels ← lift (collect (fun b => pathlib.stem <$> pathlib.Path b) benchmarks);
  plt.xticks (seq 0 (length benchmarks)) ticklabels 45 ;;
  plt.legend ;;
  plt.tight_layout ;;
  match truthy output_path with
  | Some p => plt.savefig p ;; print ("Chart saved to " +:+ p)
  | None => plt.show
  end.

(** ** main *)

(** [argparse] hands [main] the list of files, which it makes sure is not
    empty, and the output path, [None] when the option is not given. *)
Definition main (fs : pd.file_system) (files : list string)
    (output : option string) : M unit :=
  data ← lift (process_benchmark_data fs files);
  create_bar_chart data output.

(** ** Vocabulary of the properties *)

(** The sum of a list of numbers, added from left to right starting at 0,
    and the arithmetic mean: the sum divided by the count.  The mean of no
    value at all is missing. *)
Definition Qsum (vs : list Q) : Q := foldl Qplus 0%Q vs.

Definition arithmetic_mean (vs : list Q) : option Q :=
  match vs with
  | [] => NaN
  | _ :: _ => Some (Qsum vs / inject_Z (Z.of_nat (length vs)))%Q
  end.

(** The rows of a table that carry the key [k], and the runtime values they
    hold (a row whose runtime cell is missing holds none). *)
Definition group_of (k : key) (rs : list Row) : list Row :=
  filter (fun r => row_key r = Some k) rs.

Definition runtime_values (rs : list Row) : list Q := omap Runtime rs.

Definition group_row (rs : list Row) (k : key) : Row :=
  mkRow (Some k.1) (Some k.2) (arithmetic_mean (runtime_values (group_of k rs))).

(** The rows the script reads, file after file. *)
Definition input_rows (fs : pd.file_system) (files : list string) : list Row :=
  flat_map (fun p => from_option frame_rows [] (fs p)) files.

(** The values a pass over labelled values adds to group [i]. *)
Definition labelled_values (i : nat) (lvs : list (option nat * option Q))
    : list Q :=
  omap (fun lv =>
          match lv with
          | (Some j, Some v) => if bool_decide (j = i) then Some v else None
          | _ => None
          end) lvs.

(** The keys of the rows of a file (a row with a missing key cell has no
    key), and how many distinct ones there are. *)
Definition frame_keys (df : DataFrame) : list key :=
  omap row_key (frame_rows df).

Definition distinct_keys (df : DataFrame) : nat :=
  length (remove_dups (frame_keys df)).

Definition input_keys (fs : pd.file_system) (files : list string) : list key :=
  omap row_key (input_rows fs files).

(** ** Vocabulary of the chart *)

(** The container [draw_binary] hands to the figure for one binary. *)
Definition binary_container (data : DataFrame)
    (benchmarks : list (option string)) (bar_width : Q)
    (ib : nat * option string) : result BarContainer :=
  heights ← getitem Runtime col_Runtime (select_binary data ib.2);
  lbl ← pathlib.name <$> pathlib.Path ib.2;
  plt.bar_container
    (map (bar_position bar_width ib.1) (seq 0 (length benchmarks)))
    heights bar_width lbl.

(** The results of [f] along a list up to the first exception, and that
    exception when there is one. *)
Fixpoint run_until_raise {A B} (f : A → result B) (l : list A)
    : list B * option exn :=
  match l with
  | [] => ([], None)
  | a :: l' =>
      match f a with
      | Ok b => let (bs, e) := run_until_raise f l' in (b :: bs, e)
      | Raise e => ([], Some e)
      end
  end.

Definition add_containers (cs : list BarContainer) (w : World) : World :=
  mkWorld (style w) (palette w)
    (foldl (fun f c => plt.add_container c f) (plt.gcf w) cs :: tail (figures w))
    (written w) (displayed w) (stdout w) (writable w).

(** What a call leaves outside the figures: files, displays and output. *)
Definition outputs (w : World)
    : list (string * Figure) * list (list Figure) * list string :=
  (written w, displayed w, stdout w).


(** The heights of the bars of a figure, container by container. *)
Definition bar_heights (f : Figure) : list (string * list (option Q)) :=
  map (fun c => (label c, map rect_height (patches c))) (containers f).

Definition bar_positions (f : Figure) : list (list Q) :=
  map (fun c => map (fun r => Qred (rect_x r)) (patches c)) (containers f).

(** The rows of every binary list the benchmarks in the order in which the
    chart places them on the x axis. *)
Definition aligned (data : DataFrame) (benchmarks : list (option string))
    : Prop :=
  ∀ b : string,
    Some b ∈ map Binary (rows data) →
    map Benchmark_File (rows (select_binary data (Some b))) = benchmarks.

(** The [j]-th bar of the [i]-th container of a figure. *)
Definition bar_at (f : Figure) (i j : nat) : option Rectangle :=
  c ← containers f !! i; patches c !! j.

(** The container of a binary that has one row per benchmark. *)
Definition grid_container (data : DataFrame) (n : nat) (bar_width : Q)
    (ib : nat * option string) : BarContainer :=
  mkBarContainer
    (zip_with (fun p h => mkRectangle p h bar_width)
       (map (bar_position bar_width ib.1) (seq 0 n))
       (map Runtime (rows (select_binary data ib.2))))
    (from_option pathlib.name "" ib.2).

(** Every binary of the table has a row for every benchmark of the table. *)
Definition complete_grid (rs : list Row) : Prop :=
  ∀ (b m : string) (r1 r2 : Row),
    r1 ∈ rs → r2 ∈ rs → Binary r1 = Some b → Benchmark_File r2 = Some m →
    ∃ r, r ∈ rs ∧ row_key r = Some (b, m).

Definition string_lt (a b : string) : Prop := String.compare a b = Lt.

(** ** Sample inputs *)

(** A table with the three required columns. *)
Definition three_columns (rs : list Row) : DataFrame :=
  {| columns := required_columns; rows := rs |}.

Definition record (b f : string) (t : Q) : Row :=
  mkRow (Some b) (Some f) (Some t).

(** File A of the specification: two runs of one benchmark by one binary. *)
Definition file_A : DataFrame :=
  three_columns [record "bin1" "b1.lox" 1; record "bin1" "b1.lox" 3].

Definition file_B : DataFrame :=
  three_columns [record "bin2" "b2.lox" (5 # 2); record "bin0" "b1.lox" 4;
            record "bin2" "b2.lox" (7 # 2)].

(** A file without the runtime column. *)
Definition file_C : DataFrame :=
  {| columns := [col_Binary; col_Benchmark_File];
     rows := [mkRow (Some "bin1") (Some "b1.lox") NaN;
              mkRow (Some "bin3") (Some "b1.lox") NaN] |}.

Definition sample_fs : pd.file_system := fun p =>
  if bool_decide (p = "a.csv") then Some file_A
  else if bool_decide (p = "b.csv") then Some file_B
  else if bool_decide (p = "c.csv") then Some file_C
  else None.

(** A table in which every binary has run every benchmark, one in which
    binary B has not run the second benchmark, one in which it has run two
    benchmarks out of three, and a table without rows. *)
Definition table_grid : DataFrame :=
  three_columns [record "target/chef" "bench/b1.lox" 1;
            record "target/chef" "bench/b2.lox" 2;
            record "target/jlox" "bench/b1.lox" 3;
            record "target/jlox" "bench/b2.lox" 4].

Definition table_incomplete : DataFrame :=
  three_columns [record "A" "b1.lox" 1; record "A" "b2.lox" 2;
            record "B" "b1.lox" 3].

Definition table_ragged : DataFrame :=
  three_columns [record "A" "b1.lox" 1; record "A" "b2.lox" 2;
            record "A" "b3.lox" 3; record "B" "b1.lox" 4;
            record "B" "b2.lox" 5].

Definition table_empty : DataFrame := three_columns [].

(** The files of the sample inputs: [d.csv], [e.csv] and [f.csv] hold one
    run per row of the full, of the incomplete and of the ragged table, in
    another order. *)
Definition chart_fs : pd.file_system := fun p =>
  if bool_decide (p = "d.csv") then
    Some (three_columns [record "target/jlox" "bench/b2.lox" 4;
                    record "target/chef" "bench/b1.lox" 1;
                    record "target/jlox" "bench/b1.lox" 3;
                    record "target/chef" "bench/b2.lox" 2])
  else if bool_decide (p = "e.csv") then
    Some (three_columns [record "B" "b1.lox" 3; record "A" "b2.lox" 2;
                    record "A" "b1.lox" 1])
  else if bool_decide (p = "f.csv") then
    Some (three_columns [record "B" "b2.lox" 5; record "A" "b3.lox" 3;
                    record "B" "b1.lox" 4; record "A" "b1.lox" 1;
                    record "A" "b2.lox" 2])
  else None.

(** ** Vocabulary of the further properties *)

(** The rows that carry a key. *)
Definition keyed (rs : list Row) : list Row :=
  filter (fun r => is_Some (row_key r)) rs.

(** A file with two rows that carry no key and one run without a runtime,
    and the file of its other rows. *)
Definition file_G : DataFrame :=
  three_columns [record "bin1" "b1.lox" 2;
                 mkRow NaN (Some "b1.lox") (Some 9%Q);
                 mkRow (Some "bin1") (Some "b1.lox") NaN;
                 mkRow (Some "bin1") NaN (Some 7%Q);
                 record "bin1" "b1.lox" 4].

Definition file_H : DataFrame :=
  three_columns [record "bin1" "b1.lox" 2;
                 mkRow (Some "bin1") (Some "b1.lox") NaN;
                 record "bin1" "b1.lox" 4].

Definition keyed_fs : pd.file_system := fun p =>
  if bool_decide (p = "g.csv") then Some file_G
  else if bool_decide (p = "h.csv") then Some file_H
  else None.

(** The stages of a run of [create_bar_chart]: the world once the style is
    set and the figure opened, and the current figure once it is titled and
    once it is finished. *)
Definition opened (w : World) : World :=
  mkWorld (Some "seaborn-v0_8") (Some "husl")
    (empty_figure (12, 6)%Z :: figures w) (written w) (displayed w) (stdout w)
    (writable w).

Definition set_current (f : Figure) (w : World) : World :=
  mkWorld (style w) (palette w) (f :: tail (figures w)) (written w)
    (displayed w) (stdout w) (writable w).

Definition titled (f : Figure) : Figure :=
  mkFigure (figsize f) (containers f) "Benchmark" "Average Runtime (seconds)"
    "Benchmark Performance Comparison" (fig_xticks f) (fig_xticks_rotation f)
    (fig_legend f) (fig_tight f).

Definition finished (ticks : list (nat * string)) (f : Figure) : Figure :=
  mkFigure (figsize f) (containers f) "Benchmark" "Average Runtime (seconds)"
    "Benchmark Performance Comparison" (Some ticks) 45
    (Some (filter plt.in_legend (map label (containers f)))) true.

(** The last stage: the world once the chart is saved and the path
    reported, the world once the chart is shown, and the outcome of the
    branch on the output path. *)
Definition saved (p : string) (w : World) : World :=
  mkWorld (style w) (palette w) (figures w)
    (written w ++ [(plt.image_path p, plt.gcf w)]) (displayed w)
    (stdout w ++ ["Chart saved to " +:+ p]) (writable w).

Definition shown (w : World) : World :=
  mkWorld (style w) (palette w) (figures w) (written w)
    (displayed w ++ [figures w]) (stdout w) (writable w).

Definition emitted (output_path : option string) (w : World)
    : World * result unit :=
  match truthy output_path with
  | Some p =>
      match plt.save_error w p with
      | Some e => (w, Raise e)
      | None => (saved p w, Ok tt)
      end
  | None => (shown w, Ok tt)
  end.

(** Whether the chart can be emitted: there is no output path, or the path
    names a format pyplot writes and a file that can be written. *)
Definition can_emit (w : World) (output_path : option string) : Prop :=
  ∀ p, truthy output_path = Some p → plt.save_error w p = None.

(** What [create_bar_chart] computes before it draws: the benchmarks, the
    binaries and the width of a bar. *)
Definition chart_plan (data : DataFrame)
    : result (list (option string) * list (option string) * Q) :=
  benchmarks ← unique <$> getitem Benchmark_File col_Benchmark_File data;
  binaries ← unique <$> getitem Binary col_Binary data;
  bar_width ← truediv (8 # 10) (length binaries);
  Ok (benchmarks, binaries, bar_width).

(** The run of [create_bar_chart] as a function of the table. *)
Definition chart_run (data : DataFrame) (output_path : option string)
    (w : World) : World * result unit :=
  match chart_plan data with
  | Raise e => (opened w, Raise e)
  | Ok (benchmarks, binaries, bar_width) =>
      let (cs, e) :=
        run_until_raise (binary_container data benchmarks bar_width)
          (enumerate binaries) in
      let w1 := add_containers cs (opened w) in
      match e with
      | Some e => (w1, Raise e)
      | None =>
          match collect (fun b => pathlib.stem <$> pathlib.Path b) benchmarks with
          | Raise e => (set_current (titled (plt.gcf w1)) w1, Raise e)
          | Ok ticklabels =>
              emitted output_path
                (set_current
                   (finished (zip (seq 0 (length benchmarks)) ticklabels)
                      (plt.gcf w1))
                   w1)
          end
      end
  end.

(** The chart of a call that returns: the figure it has written to the
    output path, or the figure it has put on display. *)
Definition chart_of (w' : World) (output_path : option string) : Figure :=
  default (empty_figure (6, 4)%Z)
    match truthy output_path with
    | Some _ => snd <$> last (written w')
    | None => last (displayed w') ≫= head
    end.

(** * Properties *)

(** Unfolds the binds of the two monads, so that a run of the script is a
    cascade of matches on the results of its steps. *)
Ltac run_script :=
  unfold mbind, M_bind, result_bind, mret, M_ret, lift, modify.

(** ** Strictly ascending lists *)

Section StrictOrder.
Context {A : Type} (lt : A → A → Prop).
Hypothesis lt_irrefl : ∀ a, ¬ lt a a.
Hypothesis lt_trans : ∀ a b c, lt a b → lt b c → lt a c.

Lemma strictly_sorted_NoDup (l : list A) : StronglySorted lt l → NoDup l.
Proof.
  induction 1 as [|a l Hs IH Hall]; constructor; [|done].
  intros Hin. eapply Forall_forall in Hall; [|done].
  by apply lt_irrefl in Hall.
Qed.

Lemma strictly_sorted_ext (l1 l2 : list A) :
  StronglySorted lt l1 → StronglySorted lt l2 →
  (∀ x, x ∈ l1 ↔ x ∈ l2) → l1 = l2.
Proof.
  intros H1. revert l2.
  induction H1 as [|a l1 Hs1 IH Ha]; intros l2 H2 Hext.
  - destruct l2 as [|b l2]; [done|].
    pose proof (proj2 (Hext b) ltac:(left)) as Hb. by apply elem_of_nil in Hb.
  - destruct H2 as [|b l2 Hs2 Hb].
    + pose proof (proj1 (Hext a) ltac:(left)) as Hb. by apply elem_of_nil in Hb.
    + rewrite Forall_forall in Ha, Hb.
      assert (a = b) as ->.
      { pose proof (proj1 (Hext a) ltac:(left)) as Hab.
        pose proof (proj2 (Hext b) ltac:(left)) as Hba.
        apply elem_of_cons in Hab as [?|Hab]; [done|].
        apply elem_of_cons in Hba as [?|Hba]; [done|].
        exfalso. apply (lt_irrefl a). eauto. }
      f_equal. apply IH; [done|]. intros x. split; intros Hx.
      * pose proof (proj1 (Hext x) ltac:(by right)) as Hx'.
        apply elem_of_cons in Hx' as [->|?]; [|done].
        exfalso. by apply (lt_irrefl b), Ha.
      * pose proof (proj2 (Hext x) ltac:(by right)) as Hx'.
        apply elem_of_cons in Hx' as [->|?]; [|done].
        exfalso. by apply (lt_irrefl b), Hb.
Qed.

Lemma strictly_sorted_filter (P : A → Prop) `{∀ x, Decision (P x)} l :
  StronglySorted lt l → StronglySorted lt (filter P l).
Proof.
  induction 1 as [|a l Hs IH Hall]; [constructor|].
  rewrite filter_cons. destruct (decide (P a)); [|done].
  constructor; [done|]. apply Forall_forall. intros x [_ Hx]%list_elem_of_filter.
  by eapply Forall_forall in Hall.
Qed.

End StrictOrder.

(** ** unique *)

Section Unique.
Context `{EqDecision A}.

Lemma unique_from (acc l : list A) :
  NoDup acc →
  NoDup (foldl unique_step acc l)
  ∧ ∀ x, x ∈ foldl unique_step acc l ↔ x ∈ acc ∨ x ∈ l.
Proof.
  revert acc. induction l as [|a l IH]; intros acc Hacc; simpl.
  - split; [done|]. intros x. rewrite elem_of_nil. tauto.
  - unfold unique_step at 2 4. case_bool_decide as Ha.
    + destruct (IH acc Hacc) as [Hnd Hin]. split; [done|].
      intros x. rewrite Hin, elem_of_cons. naive_solver.
    + destruct (IH (acc ++ [a])%list) as [Hnd Hin].
      { apply NoDup_app. split_and!; [done| |apply NoDup_singleton].
        intros x Hx ->%list_elem_of_singleton. done. }
      split; [done|]. intros x.
      rewrite Hin, elem_of_app, elem_of_cons, elem_of_cons, elem_of_nil.
      tauto.
Qed.

Lemma NoDup_unique (l : list A) : NoDup (unique l).
Proof. apply unique_from. constructor. Qed.

Lemma elem_of_unique (l : list A) (x : A) : x ∈ unique l ↔ x ∈ l.
Proof.
  unfold unique. destruct (unique_from [] l) as [_ ->]; [constructor|].
  rewrite elem_of_nil. tauto.
Qed.

Lemma unique_nil_inv (l : list A) : unique l = [] → l = [].
Proof.
  intros Hu. destruct l as [|a l]; [done|].
  assert (a ∈ unique (a :: l)) as Hin by (apply elem_of_unique; left).
  rewrite Hu in Hin. by apply elem_of_nil in Hin.
Qed.

End Unique.

Section UniqueFacts.
Context `{EqDecision A}.

Lemma unique_step_NoDup (acc l : list A) :
  (∀ x, x ∈ l → x ∈ acc) → foldl unique_step acc l = acc.
Proof.
  induction l as [|a l IH]; intros Hsub; simpl; [done|].
  unfold unique_step at 2. rewrite bool_decide_true by (apply Hsub; left).
  apply IH. intros x Hx. apply Hsub. by right.
Qed.

Lemma unique_from_app (acc l : list A) :
  NoDup (acc ++ l) → foldl unique_step acc l = (acc ++ l)%list.
Proof.
  revert acc. induction l as [|a l IH]; intros acc Hnd; simpl.
  - by rewrite app_nil_r.
  - unfold unique_step at 2. rewrite bool_decide_false.
    + rewrite IH; rewrite <-app_assoc; done.
    + apply NoDup_app in Hnd as (_ & Hdisj & _). intros Ha.
      apply (Hdisj a Ha). left.
Qed.

(** A list without duplicates followed by elements it already has. *)
Lemma unique_app_absorb (l1 l2 : list A) :
  NoDup l1 → (∀ x, x ∈ l2 → x ∈ l1) → unique (l1 ++ l2) = l1.
Proof.
  intros Hnd Hsub. unfold unique. rewrite foldl_app.
  rewrite (unique_from_app [] l1) by done. simpl. by apply unique_step_NoDup.
Qed.

Lemma unique_fmap `{EqDecision B} (f : A → B) `{!Inj (=) (=) f} (l : list A) :
  unique (f <$> l) = f <$> unique l.
Proof.
  unfold unique. change (@nil B) with (f <$> @nil A).
  generalize (@nil A). induction l as [|a l IH]; intros acc; simpl; [done|].
  rewrite <-IH. f_equal. unfold unique_step.
  destruct (decide (a ∈ acc)) as [Ha|Ha].
  - rewrite !bool_decide_true; [done..|]. by apply list_elem_of_fmap_2.
  - rewrite !bool_decide_false; [by rewrite fmap_app|done|].
    intros (a' & Heq & Ha')%list_elem_of_fmap. apply (inj f) in Heq. by subst.
Qed.

End UniqueFacts.

(** ** The order on keys *)

Section KeyOrder.

Lemma string_compare_refl (s : string) : String.compare s s = Eq.
Proof. by apply String_as_OT.cmp_eq. Qed.

Lemma string_compare_trans (a b c : string) :
  String.compare a b = Lt → String.compare b c = Lt → String.compare a c = Lt.
Proof.
  intros Hab Hbc. apply String_as_OT.cmp_lt.
  eapply String_as_OT.lt_trans; by apply String_as_OT.cmp_lt.
Qed.

Lemma key_compare_eq (a b : key) : key_compare a b = Eq ↔ a = b.
Proof.
  destruct a as [a1 a2], b as [b1 b2]. unfold key_compare. simpl. split.
  - destruct (String.compare a1 b1) eqn:E1; try discriminate.
    intros E2. apply String_as_OT.cmp_eq in E1, E2. by subst.
  - intros [= -> ->]. by rewrite !string_compare_refl.
Qed.

Lemma key_compare_antisym (a b : key) :
  key_compare a b = CompOpp (key_compare b a).
Proof.
  destruct a as [a1 a2], b as [b1 b2]. unfold key_compare. simpl.
  pose proof (String_as_OT.cmp_antisym a1 b1) as H1.
  pose proof (String_as_OT.cmp_antisym a2 b2) as H2.
  unfold String_as_OT.cmp in H1, H2. rewrite H1.
  by destruct (String.compare b1 a1).
Qed.

Lemma key_lt_irrefl (a : key) : ¬ key_lt a a.
Proof.
  unfold key_lt. by rewrite (proj2 (key_compare_eq a a) eq_refl).
Qed.

Lemma key_lt_trans (a b c : key) : key_lt a b → key_lt b c → key_lt a c.
Proof.
  destruct a as [a1 a2], b as [b1 b2], c as [c1 c2].
  unfold key_lt, key_compare. simpl.
  destruct (String.compare a1 b1) eqn:Eab; try discriminate;
    destruct (String.compare b1 c1) eqn:Ebc; try discriminate; intros H1 H2.
  - apply String_as_OT.cmp_eq in Eab, Ebc. subst.
    rewrite string_compare_refl. eauto using string_compare_trans.
  - apply String_as_OT.cmp_eq in Eab. subst. by rewrite Ebc.
  - apply String_as_OT.cmp_eq in Ebc. subst. by rewrite Eab.
  - by rewrite (string_compare_trans _ _ _ Eab Ebc).
Qed.

Lemma key_gt_lt (a b : key) : key_compare a b = Gt → key_lt b a.
Proof.
  unfold key_lt. rewrite (key_compare_antisym b a). by intros ->.
Qed.

Lemma elem_of_insert_key (k x : key) (l : list key) :
  x ∈ insert_key k l ↔ x = k ∨ x ∈ l.
Proof.
  induction l as [|k' l IH]; simpl.
  - rewrite list_elem_of_singleton. set_solver.
  - destruct (key_compare k k') eqn:E.
    + apply key_compare_eq in E. subst. set_solver.
    + set_solver.
    + rewrite !elem_of_cons, IH. tauto.
Qed.

Lemma insert_key_sorted (k : key) (l : list key) :
  StronglySorted key_lt l → StronglySorted key_lt (insert_key k l).
Proof.
  induction 1 as [|k' l Hs IH Hall]; simpl.
  - repeat constructor.
  - destruct (key_compare k k') eqn:E.
    + by constructor.
    + constructor; [by constructor|].
      constructor; [done|].
      eapply Forall_impl; [exact Hall|]. intros y Hy. by eapply key_lt_trans.
    + constructor; [done|].
      apply Forall_forall. intros y Hy%elem_of_insert_key.
      destruct Hy as [->|Hy]; [by apply key_gt_lt|].
      by eapply Forall_forall in Hall.
Qed.

Lemma sorted_uniques_from (acc ks : list key) :
  StronglySorted key_lt acc →
  StronglySorted key_lt (foldl (fun acc k => insert_key k acc) acc ks)
  ∧ ∀ x, x ∈ foldl (fun acc k => insert_key k acc) acc ks ↔ x ∈ acc ∨ x ∈ ks.
Proof.
  revert acc. induction ks as [|k ks IH]; intros acc Hacc; simpl.
  - split; [done|]. set_solver.
  - destruct (IH (insert_key k acc)) as [Hs Hin];
      [by apply insert_key_sorted|].
    split; [done|]. intros x. rewrite Hin, elem_of_insert_key. set_solver.
Qed.

Lemma sorted_uniques_sorted (ks : list key) :
  StronglySorted key_lt (sorted_uniques ks).
Proof. apply sorted_uniques_from. constructor. Qed.

Lemma elem_of_sorted_uniques (ks : list key) (x : key) :
  x ∈ sorted_uniques ks ↔ x ∈ ks.
Proof.
  unfold sorted_uniques.
  destruct (sorted_uniques_from [] ks) as [_ ->]; [constructor|]. set_solver.
Qed.

Lemma sorted_NoDup (l : list key) : StronglySorted key_lt l → NoDup l.
Proof. apply strictly_sorted_NoDup, key_lt_irrefl. Qed.

Lemma sorted_uniques_NoDup (ks : list key) : NoDup (sorted_uniques ks).
Proof. apply sorted_NoDup, sorted_uniques_sorted. Qed.

(** Two ascending lists with the same elements are the same list. *)
Lemma sorted_ext (l1 l2 : list key) :
  StronglySorted key_lt l1 → StronglySorted key_lt l2 →
  (∀ x, x ∈ l1 ↔ x ∈ l2) → l1 = l2.
Proof. apply strictly_sorted_ext; [apply key_lt_irrefl|apply key_lt_trans]. Qed.

End KeyOrder.

(** ** The grouped mean *)

Section GroupedMean.

Lemma foldl_mean_step_length (lvs : list (option nat * option Q))
    (acc : list (Q * nat)) :
  length (foldl pd.mean_step acc lvs) = length acc.
Proof.
  revert acc. induction lvs as [|[[lab|] [val|]] lvs IH]; intros acc; simpl;
    rewrite ?IH; try done.
  apply length_alter.
Qed.

Lemma foldl_mean_step_lookup (lvs : list (option nat * option Q))
    (acc : list (Q * nat)) (i : nat) :
  foldl pd.mean_step acc lvs !! i =
  (fun sn => (foldl Qplus sn.1 (labelled_values i lvs),
              (sn.2 + length (labelled_values i lvs))%nat)) <$> acc !! i.
Proof.
  revert acc. induction lvs as [|[lab val] lvs IH]; intros acc; simpl.
  - destruct (acc !! i) as [[s n]|]; simpl; [|done].
    by rewrite Nat.add_0_r.
  - rewrite IH. unfold labelled_values. simpl.
    destruct lab as [lab|], val as [val|]; simpl; try done.
    case_bool_decide as Hlab.
    + subst lab. rewrite list_lookup_alter, decide_True by done.
      destruct (acc !! i) as [[s n]|]; simpl; [|done].
      do 2 f_equal. lia.
    + by rewrite list_lookup_alter_ne.
Qed.

Lemma mean_out_arithmetic_mean (vs : list Q) :
  pd.mean_out (foldl Qplus 0%Q vs, (0 + length vs)%nat) = arithmetic_mean vs.
Proof. by destruct vs. Qed.

Lemma group_mean_lookup labels values n i :
  (i < n)%nat →
  pd.group_mean labels values n !! i =
  Some (arithmetic_mean (labelled_values i (zip labels values))).
Proof.
  intros Hi. unfold pd.group_mean.
  rewrite list_lookup_fmap, foldl_mean_step_lookup.
  rewrite lookup_replicate_2 by done. simpl.
  by rewrite mean_out_arithmetic_mean.
Qed.

Lemma label_of_Some index r i :
  pd.label_of index r = Some i →
  ∃ k, row_key r = Some k ∧ index !! i = Some k.
Proof.
  unfold pd.label_of. destruct (row_key r) as [k|]; simpl; [|done].
  destruct (list_find (k =.) index) as [[j x]|] eqn:E; simpl; [|done].
  intros [= ->]. apply list_find_Some in E as (? & <- & _). eauto.
Qed.

Lemma label_of_lookup index r i k :
  NoDup index → index !! i = Some k → row_key r = Some k →
  pd.label_of index r = Some i.
Proof.
  intros Hnd Hi Hk. unfold pd.label_of. rewrite Hk. simpl.
  destruct (list_find (k =.) index) as [[j x]|] eqn:E; simpl.
  - apply list_find_Some in E as (Hj & <- & _).
    f_equal. by eapply NoDup_lookup.
  - eapply list_find_None, Forall_lookup in E; [|done]. done.
Qed.

Lemma labelled_values_cons i lab val lvs :
  labelled_values i ((lab, val) :: lvs) =
  match lab, val with
  | Some j, Some v =>
      if bool_decide (j = i) then v :: labelled_values i lvs
      else labelled_values i lvs
  | _, _ => labelled_values i lvs
  end.
Proof.
  unfold labelled_values. simpl.
  destruct lab as [j|], val as [v|]; simpl; try done.
  by case_bool_decide.
Qed.

Lemma runtime_values_group_cons k r rs :
  runtime_values (group_of k (r :: rs)) =
  if bool_decide (row_key r = Some k) then
    match Runtime r with
    | Some v => v :: runtime_values (group_of k rs)
    | None => runtime_values (group_of k rs)
    end
  else runtime_values (group_of k rs).
Proof.
  unfold runtime_values, group_of. rewrite filter_cons.
  case_bool_decide as Hk.
  - rewrite decide_True by done. simpl. by destruct (Runtime r).
  - by rewrite decide_False by done.
Qed.

Lemma labelled_values_rows index i k (rs : list Row) :
  NoDup index → index !! i = Some k →
  labelled_values i (zip (map (pd.label_of index) rs) (map Runtime rs)) =
  runtime_values (group_of k rs).
Proof.
  intros Hnd Hi. induction rs as [|r rs IH]; [done|].
  rewrite runtime_values_group_cons. cbn [map zip zip_with].
  rewrite labelled_values_cons, IH.
  case_bool_decide as Hk.
  - rewrite (label_of_lookup _ _ _ _ Hnd Hi Hk).
    destruct (Runtime r) as [v|]; [|done].
    by rewrite bool_decide_true.
  - destruct (pd.label_of index r) as [j|] eqn:Ej; [|done].
    destruct (Runtime r) as [v|]; [|done].
    case_bool_decide as Hj; [|done]. subst j.
    apply label_of_Some in Ej as (k' & Hk' & Hi'). congruence.
Qed.

(** What [groupby(...).mean().reset_index()] returns: one row per observed
    key, in ascending order of the keys, holding the mean of the group. *)
Lemma groupby_mean_rows (df R : DataFrame) :
  pd.groupby_mean df = Ok R →
  columns R = required_columns ∧
  rows R = map (group_row (rows df)) (sorted_uniques (omap row_key (rows df))).
Proof.
  unfold pd.groupby_mean.
  repeat (case_match; [done|]). intros [= <-]. simpl. split; [done|].
  pose proof (sorted_uniques_NoDup (omap row_key (rows df))) as Hnd.
  remember (sorted_uniques (omap row_key (rows df))) as index.
  apply list_eq. intros i.
  rewrite list_lookup_fmap, lookup_zip_with.
  destruct (index !! i) as [k|] eqn:Hi; simpl; [|done].
  rewrite group_mean_lookup by (by eapply lookup_lt_Some).
  simpl. unfold group_row.
  by rewrite (labelled_values_rows index i k (rows df) Hnd Hi).
Qed.

Lemma collect_Ok {A B} (f : A → result B) (l : list A) (bs : list B) :
  collect f l = Ok bs ↔ Forall2 (fun a b => f a = Ok b) l bs.
Proof.
  revert bs. induction l as [|a l IH]; intros bs; simpl.
  - split; [intros [= <-]; constructor|by inversion 1].
  - split.
    + destruct (f a) as [b|] eqn:Ea; simpl; [|done].
      destruct (collect f l) as [bs'|] eqn:El; simpl; [|done].
      intros [= <-]. constructor; [done|]. by apply IH.
    + inversion 1 as [|? b ? bs' Ha Hl]; subst. rewrite Ha. simpl.
      apply IH in Hl. by rewrite Hl.
Qed.

Lemma read_csv_Ok fs p df : pd.read_csv fs p = Ok df ↔ fs p = Some df.
Proof. unfold pd.read_csv. destruct (fs p); naive_solver. Qed.

Lemma input_rows_read fs files dfs :
  Forall2 (fun p df => pd.read_csv fs p = Ok df) files dfs →
  input_rows fs files = flat_map frame_rows dfs.
Proof.
  unfold input_rows. induction 1 as [|p df files dfs Hp _ IH]; [done|].
  simpl. apply read_csv_Ok in Hp. rewrite Hp. simpl. by rewrite IH.
Qed.

(** The aggregated table in terms of the rows read. *)
Lemma process_benchmark_data_rows fs files R :
  process_benchmark_data fs files = Ok R →
  columns R = required_columns ∧
  rows R = map (group_row (input_rows fs files))
             (sorted_uniques (omap row_key (input_rows fs files))).
Proof.
  unfold process_benchmark_data.
  destruct (collect (pd.read_csv fs) files) as [dfs|] eqn:Hdfs; simpl; [|done].
  apply collect_Ok in Hdfs. rewrite (input_rows_read _ _ _ Hdfs).
  destruct dfs as [|df dfs]; [done|]. simpl.
  destruct (pd.groupby_mean _) as [R'|] eqn:HR; simpl; [|done].
  intros [= <-]. by apply groupby_mean_rows in HR.
Qed.

End GroupedMean.

(** ** The aggregated table *)

Section Aggregator.

Lemma row_key_group_row rs k : row_key (group_row rs k) = Some k.
Proof. by destruct k. Qed.

Lemma group_of_group_rows rs (index : list key) k :
  NoDup index →
  group_of k (map (group_row rs) index) =
  if bool_decide (k ∈ index) then [group_row rs k] else [].
Proof.
  unfold group_of. induction 1 as [|k' index Hk' Hnd IH]; [done|].
  cbn [map]. rewrite filter_cons, row_key_group_row, IH.
  destruct (decide (Some k' = Some k)) as [[= ->]|Hne].
  - rewrite (bool_decide_true (k ∈ k :: index)) by left.
    by rewrite (bool_decide_false (k ∈ index)).
  - destruct (decide (k ∈ index)) as [Hin|Hin].
    + rewrite (bool_decide_true (k ∈ index)) by done.
      rewrite (bool_decide_true (k ∈ k' :: index)); [done|]. by right.
    + rewrite (bool_decide_false (k ∈ index)) by done.
      rewrite (bool_decide_false (k ∈ k' :: index)); [done|].
      intros [->|?]%elem_of_cons; done.
Qed.

Lemma group_of_nil k rs : group_of k rs = [] ↔ k ∉ omap row_key rs.
Proof.
  unfold group_of. rewrite list_elem_of_omap. split.
  - intros Hnil (r & Hr & Hk).
    by apply (filter_nil_not_elem_of _ _ r Hnil Hk).
  - intros Hno. induction rs as [|r rs IH]; [done|].
    rewrite filter_cons_False.
    + apply IH. intros (r' & Hr' & Hk). apply Hno. exists r'.
      split; [by right|done].
    + intros Hk. apply Hno. exists r. split; [by left|done].
Qed.

(** The aggregation returns as soon as the files can be read and each
    required column is in one of them. *)
Lemma process_benchmark_data_returns fs files dfs :
  Forall2 (fun p df => fs p = Some df) files dfs →
  files ≠ [] →
  (∀ c, c ∈ required_columns → ∃ df, df ∈ dfs ∧ c ∈ columns df) →
  ∃ R, process_benchmark_data fs files = Ok R.
Proof.
  intros Hread Hne Hcols. unfold process_benchmark_data.
  assert (collect (pd.read_csv fs) files = Ok dfs) as ->.
  { apply collect_Ok. eapply Forall2_impl; [exact Hread|].
    intros p df Hp. by apply read_csv_Ok. }
  simpl. destruct dfs as [|df dfs'].
  { apply Forall2_nil_inv_r in Hread. done. }
  remember (df :: dfs') as dfs.
  assert (pd.concat dfs = Ok {| columns := unique (flat_map columns dfs);
                                rows := flat_map frame_rows dfs |}) as ->
    by by subst dfs.
  simpl.
  assert (∀ c, c ∈ required_columns →
               has_column (unique (flat_map columns dfs)) c = true) as Hhas.
  { intros c Hc. destruct (Hcols c Hc) as (d & Hd & Hcd).
    apply bool_decide_eq_true. rewrite elem_of_unique, list_elem_of_In.
    apply in_flat_map. exists d. by rewrite <-!list_elem_of_In. }
  unfold pd.groupby_mean. simpl.
  rewrite !Hhas by (unfold required_columns; set_solver). simpl. by eexists.
Qed.

(** The group of a pair in the aggregated rows: empty when no row carries
    the pair, else the one row that holds the mean of the group. *)
Lemma group_of_aggregated rs (b f : string) :
  group_of (b, f) (map (group_row rs) (sorted_uniques (omap row_key rs))) =
  match group_of (b, f) rs with
  | [] => []
  | g => [mkRow (Some b) (Some f) (arithmetic_mean (runtime_values g))]
  end.
Proof.
  rewrite group_of_group_rows by apply sorted_uniques_NoDup.
  destruct (group_of (b, f) rs) as [|r g] eqn:Hg.
  - apply group_of_nil in Hg. rewrite bool_decide_false; [done|].
    by rewrite elem_of_sorted_uniques.
  - rewrite bool_decide_true.
    + unfold group_row. by rewrite Hg.
    + rewrite elem_of_sorted_uniques.
      destruct (decide ((b, f) ∈ omap row_key rs)) as [|Hno]; [done|].
      apply group_of_nil in Hno. congruence.
Qed.

Lemma arithmetic_mean_singleton (v : Q) : arithmetic_mean [v] = Some v.
Proof.
  destruct v as [n d]. unfold arithmetic_mean, Qsum, Qdiv, Qmult, Qplus.
  simpl. f_equal. f_equal; [lia|]. by rewrite Pos.mul_1_r.
Qed.

Lemma key_lt_lexicographic (a b : key) :
  key_lt a b ↔
  String.compare a.1 b.1 = Lt ∨ (a.1 = b.1 ∧ String.compare a.2 b.2 = Lt).
Proof.
  unfold key_lt, key_compare.
  destruct (String.compare a.1 b.1) eqn:E.
  - apply String_as_OT.cmp_eq in E. naive_solver.
  - naive_solver.
  - split; [done|]. intros [?|[Heq ?]]; [done|].
    apply String_as_OT.cmp_eq in Heq. unfold String_as_OT.cmp in Heq.
    congruence.
Qed.

End Aggregator.

(** C1.  The aggregated table maps each pair (Binary, Benchmark File) to the
    arithmetic mean, sum divided by count, of the runtime values of exactly
    the input rows that carry the pair: every row of the result has a key,
    a pair that no input row carries has no row, and a pair that some input
    row carries has one row, which holds that mean. *)
Theorem process_benchmark_data_mean fs files R :
  process_benchmark_data fs files = Ok R →
  Forall (fun r => is_Some (row_key r)) (rows R) ∧
  ∀ b f : string,
    group_of (b, f) (rows R) =
    match group_of (b, f) (input_rows fs files) with
    | [] => []
    | g => [mkRow (Some b) (Some f) (arithmetic_mean (runtime_values g))]
    end.
Proof.
  intros [_ HR]%process_benchmark_data_rows. rewrite HR. split.
  - apply Forall_fmap, Forall_forall. intros k _. simpl.
    by rewrite row_key_group_row.
  - intros b f. apply group_of_aggregated.
Qed.

Lemma process_benchmark_data_mean_witness :
  process_benchmark_data sample_fs ["a.csv"] =
    Ok (three_columns [mkRow (Some "bin1") (Some "b1.lox") (Some (4 # 2))]) ∧
  group_of ("bin1", "b1.lox")
    (rows (three_columns [mkRow (Some "bin1") (Some "b1.lox") (Some (4 # 2))])) =
  [mkRow (Some "bin1") (Some "b1.lox") (arithmetic_mean [1; 3]%Q)] ∧
  (4 # 2 == 2)%Q.
Proof.
  split; [reflexivity|]. split; [|reflexivity].
  exact (proj2 (process_benchmark_data_mean sample_fs ["a.csv"] _ eq_refl)
           "bin1" "b1.lox").
Defined.

(** C3.  When exactly one input row carries a pair, the aggregated runtime
    of the pair is the runtime cell of that row, unchanged. *)
Theorem single_row_group_unchanged fs files R (b f : string) (r : Row) :
  process_benchmark_data fs files = Ok R →
  group_of (b, f) (input_rows fs files) = [r] →
  map Runtime (group_of (b, f) (rows R)) = [Runtime r].
Proof.
  intros [_ HR]%process_benchmark_data_rows Hg.
  rewrite HR, group_of_aggregated, Hg. simpl. f_equal.
  unfold runtime_values. simpl.
  destruct (Runtime r) as [v|]; simpl; [|done].
  apply arithmetic_mean_singleton.
Qed.

Lemma single_row_group_unchanged_witness :
  group_of ("bin0", "b1.lox") (input_rows sample_fs ["b.csv"]) =
    [record "bin0" "b1.lox" 4] ∧
  ∃ R, process_benchmark_data sample_fs ["b.csv"] = Ok R ∧
       map Runtime (group_of ("bin0", "b1.lox") (rows R)) = [Some 4%Q].
Proof.
  split; [reflexivity|]. eexists. split; [reflexivity|].
  exact (single_row_group_unchanged sample_fs ["b.csv"] _ "bin0" "b1.lox"
           (record "bin0" "b1.lox" 4) eq_refl eq_refl).
Defined.

(** C4.  When the keys of two files are disjoint, the aggregated table of
    the two files has as many rows as the first file has distinct keys plus
    the second file has distinct keys. *)
Theorem disjoint_files_row_count fs (p1 p2 : string) (d1 d2 R : DataFrame) :
  fs p1 = Some d1 → fs p2 = Some d2 →
  (∀ k, k ∈ frame_keys d1 → k ∉ frame_keys d2) →
  process_benchmark_data fs [p1; p2] = Ok R →
  length (rows R) = (distinct_keys d1 + distinct_keys d2)%nat.
Proof.
  intros H1 H2 Hdisj [_ HR]%process_benchmark_data_rows.
  rewrite HR, length_map. unfold input_rows. simpl. rewrite H1, H2. simpl.
  rewrite app_nil_r, omap_app. fold (frame_keys d1) (frame_keys d2).
  unfold distinct_keys. rewrite <-length_app. apply Permutation_length.
  apply NoDup_Permutation.
  - apply sorted_uniques_NoDup.
  - apply NoDup_app. split_and!; [apply NoDup_remove_dups| |apply NoDup_remove_dups].
    intros k. rewrite !elem_of_remove_dups. apply Hdisj.
  - intros k.
    rewrite elem_of_sorted_uniques, !elem_of_app, !elem_of_remove_dups. done.
Qed.

Lemma disjoint_files_row_count_witness :
  ∃ R, process_benchmark_data sample_fs ["a.csv"; "b.csv"] = Ok R ∧
       length (rows R) = 3%nat.
Proof.
  eexists. split; [reflexivity|].
  refine (disjoint_files_row_count sample_fs "a.csv" "b.csv" file_A file_B _
            eq_refl eq_refl _ eq_refl).
  intros k Ha Hb. vm_compute in Ha, Hb.
  apply list_elem_of_In in Ha, Hb. simpl in Ha, Hb.
  destruct Ha as [<-|[<-|[]]]; destruct Hb as [[=]|[[=]|[[=]|[]]]].
Defined.

(** C5.  No two rows of the aggregated table carry the same pair. *)
Theorem process_benchmark_data_unique_keys fs files R :
  process_benchmark_data fs files = Ok R →
  NoDup (map row_key (rows R)).
Proof.
  intros [_ HR]%process_benchmark_data_rows. rewrite HR.
  rewrite <-list_fmap_compose.
  apply NoDup_fmap_2_strong; [|apply sorted_uniques_NoDup].
  intros k1 k2 _ _. simpl. rewrite !row_key_group_row. congruence.
Qed.

Lemma process_benchmark_data_unique_keys_witness :
  ∃ R, process_benchmark_data sample_fs ["b.csv"; "a.csv"; "b.csv"] = Ok R ∧
       NoDup (map row_key (rows R)).
Proof.
  eexists. split; [reflexivity|].
  exact (process_benchmark_data_unique_keys
           sample_fs ["b.csv"; "a.csv"; "b.csv"] _ eq_refl).
Defined.

(** C10.  The rows of the aggregated table come in ascending lexicographic
    order of their keys, and the sequence of keys is determined by the set
    of keys of the input: two inputs with the same keys, in whatever order
    of rows and files, give the same sequence of keys. *)
Theorem process_benchmark_data_sorted fs files R :
  process_benchmark_data fs files = Ok R →
  (∃ ks, map row_key (rows R) = map Some ks ∧ StronglySorted key_lt ks) ∧
  ∀ fs' files' R',
    process_benchmark_data fs' files' = Ok R' →
    (∀ k, k ∈ input_keys fs files ↔ k ∈ input_keys fs' files') →
    map row_key (rows R) = map row_key (rows R').
Proof.
  intros [_ HR]%process_benchmark_data_rows.
  assert (∀ rs, map row_key (map (group_row rs) (sorted_uniques (omap row_key rs)))
                = map Some (sorted_uniques (omap row_key rs))) as Hkeys.
  { intros rs. rewrite <-list_fmap_compose. apply list_fmap_ext.
    intros i k _. apply row_key_group_row. }
  split.
  - eexists. split; [by rewrite HR, Hkeys|]. apply sorted_uniques_sorted.
  - intros fs' files' R' [_ HR']%process_benchmark_data_rows Hsame.
    rewrite HR, HR', !Hkeys. f_equal.
    apply sorted_ext; try apply sorted_uniques_sorted.
    intros k. rewrite !elem_of_sorted_uniques. apply Hsame.
Qed.

Lemma process_benchmark_data_sorted_witness :
  ∃ R R',
    process_benchmark_data sample_fs ["a.csv"; "b.csv"] = Ok R ∧
    process_benchmark_data sample_fs ["b.csv"; "a.csv"; "b.csv"] = Ok R' ∧
    map row_key (rows R) =
      [Some ("bin0", "b1.lox"); Some ("bin1", "b1.lox"); Some ("bin2", "b2.lox")] ∧
    map row_key (rows R) = map row_key (rows R').
Proof.
  do 2 eexists. split; [reflexivity|]. split; [reflexivity|].
  split; [reflexivity|].
  refine (proj2 (process_benchmark_data_sorted sample_fs ["a.csv"; "b.csv"] _
                   eq_refl) sample_fs ["b.csv"; "a.csv"; "b.csv"] _ eq_refl _).
  intros k.
  change (input_keys sample_fs ["a.csv"; "b.csv"]) with
    (frame_keys file_A ++ frame_keys file_B)%list.
  change (input_keys sample_fs ["b.csv"; "a.csv"; "b.csv"]) with
    (frame_keys file_B ++ frame_keys file_A ++ frame_keys file_B)%list.
  rewrite !elem_of_app. tauto.
Defined.

(** C2, as the code has it.  When a required column is in none of the input
    files, the aggregation raises and so does the run, before anything is
    drawn, written, displayed or printed. *)
Theorem missing_column_everywhere_fails fs files output (w : World) (c : string) :
  c ∈ required_columns →
  (∀ p df, p ∈ files → fs p = Some df → c ∉ columns df) →
  (∃ e, process_benchmark_data fs files = Raise e) ∧
  (∃ e, main fs files output w = (w, Raise e)).
Proof.
  intros Hc Hmissing.
  assert (∃ e, process_benchmark_data fs files = Raise e) as [e He].
  { unfold process_benchmark_data.
    destruct (collect (pd.read_csv fs) files) as [dfs|e] eqn:Hdfs; simpl;
      [|by eexists].
    destruct dfs as [|df dfs']; [by eexists|].
    remember (df :: dfs') as dfs. simpl.
    assert (pd.concat dfs = Ok {| columns := unique (flat_map columns dfs);
                                  rows := flat_map frame_rows dfs |}) as ->
      by by subst dfs.
    simpl.
    assert (has_column (unique (flat_map columns dfs)) c = false) as Hno.
    { unfold has_column. apply bool_decide_eq_false.
      rewrite elem_of_unique, list_elem_of_In, in_flat_map.
      intros (d & Hd%list_elem_of_In & Hcd%list_elem_of_In).
      apply collect_Ok in Hdfs.
      apply list_elem_of_lookup in Hd as [i Hi].
      destruct (Forall2_lookup_r _ _ _ _ _ Hdfs Hi) as (p & Hp & Hread).
      apply read_csv_Ok in Hread.
      eapply Hmissing; [|done..]. by eapply list_elem_of_lookup_2. }
    unfold pd.groupby_mean. simpl.
    unfold required_columns in Hc.
    repeat (apply elem_of_cons in Hc as [->|Hc]); [..|by apply elem_of_nil in Hc].
    - rewrite Hno. by eexists.
    - destruct (has_column _ col_Binary); simpl; [|by eexists].
      rewrite Hno. by eexists.
    - destruct (has_column _ col_Binary); simpl; [|by eexists].
      destruct (has_column _ col_Benchmark_File); simpl; [|by eexists].
      rewrite Hno. by eexists. }
  split; [by eexists|]. exists e. unfold main.
  run_script. by rewrite He.
Qed.

Lemma missing_column_everywhere_fails_witness :
  process_benchmark_data sample_fs ["c.csv"] = Raise (KeyError col_Runtime) ∧
  ∃ e, main sample_fs ["c.csv"] (Some "out.png") initial_world =
       (initial_world, Raise e).
Proof.
  split; [reflexivity|].
  refine (proj2 (missing_column_everywhere_fails sample_fs ["c.csv"]
                   (Some "out.png") initial_world col_Runtime _ _)).
  - do 2 apply list_elem_of_further. apply list_elem_of_here.
  - intros p df Hp%list_elem_of_singleton Hdf. subst p.
    injection Hdf as <-. simpl.
    rewrite !elem_of_cons, elem_of_nil. intros [?|[?|[]]]; discriminate.
Defined.

(** C2 fails on the code: [c.csv] has no runtime column, yet the run over
    [a.csv] and [c.csv] returns; the aggregated table holds a row for a pair
    that only [c.csv] has, with a missing mean, and the chart is written. *)
Lemma missing_column_in_one_file_runs :
  sample_fs "c.csv" = Some file_C ∧ (col_Runtime ∉ columns file_C) ∧
  process_benchmark_data sample_fs ["a.csv"; "c.csv"] =
    Ok (three_columns [mkRow (Some "bin1") (Some "b1.lox") (Some (4 # 2));
                       mkRow (Some "bin3") (Some "b1.lox") NaN]) ∧
  ∃ w', main sample_fs ["a.csv"; "c.csv"] (Some "out.png") initial_world =
          (w', Ok tt) ∧
        map fst (written w') = ["out.png"].
Proof.
  split; [reflexivity|]. split.
  - simpl. rewrite !elem_of_cons, elem_of_nil. intros [?|[?|[]]]; discriminate.
  - split; [reflexivity|]. eexists. split; vm_compute; reflexivity.
Qed.

(** ** Running the script *)

Section Run.

Lemma add_containers_nil (w : World) :
  figures w ≠ [] → add_containers [] w = w.
Proof.
  destruct w as [? ? [|f fs] ? ? ? ?]; [done|]. intros _. reflexivity.
Qed.

Lemma run_draw_binary data benchmarks bar_width ib (w : World) :
  draw_binary data benchmarks bar_width ib w =
  match binary_container data benchmarks bar_width ib with
  | Ok c => (add_containers [c] w, Ok tt)
  | Raise e => (w, Raise e)
  end.
Proof.
  unfold draw_binary, binary_container, plt.bar.
  run_script.
  destruct (getitem Runtime col_Runtime _) as [heights|e]; [|reflexivity].
  destruct (pathlib.Path ib.2) as [s|e]; [|reflexivity].
  simpl. destruct (plt.bar_container _ _ _ _) as [c|e]; reflexivity.
Qed.

Lemma add_containers_cons c cs (w : World) :
  add_containers cs (add_containers [c] w) = add_containers (c :: cs) w.
Proof. reflexivity. Qed.

(** The loop over the binaries adds the containers of the binaries drawn
    before the first exception, in order, and raises that exception. *)
Lemma run_draw_loop data benchmarks bar_width ibs (w : World) :
  figures w ≠ [] →
  for_each (draw_binary data benchmarks bar_width) ibs w =
  let (cs, e) :=
    run_until_raise (binary_container data benchmarks bar_width) ibs in
  (add_containers cs w, from_option Raise (Ok tt) e).
Proof.
  revert w. induction ibs as [|ib ibs IH]; intros w Hw; simpl.
  - by rewrite add_containers_nil.
  - unfold mbind, M_bind. rewrite run_draw_binary.
    destruct (binary_container _ _ _ ib) as [c|e]; simpl.
    + rewrite IH by done.
      destruct (run_until_raise _ ibs) as [cs e].
      by rewrite add_containers_cons.
    + by rewrite add_containers_nil.
Qed.

Lemma containers_add_containers cs (w : World) :
  containers (plt.gcf (add_containers cs w)) = (containers (plt.gcf w) ++ cs)%list.
Proof.
  unfold add_containers, plt.gcf at 1. simpl.
  generalize (plt.gcf w). induction cs as [|c cs IH]; intros f; simpl.
  - by rewrite app_nil_r.
  - rewrite IH. simpl. by rewrite <-app_assoc.
Qed.




Lemma run_until_raise_collect {A B} (f : A → result B) l :
  match collect f l with
  | Ok bs => run_until_raise f l = (bs, None)
  | Raise e => ∃ bs, run_until_raise f l = (bs, Some e)
  end.
Proof.
  induction l as [|a l IH]; simpl; [done|].
  destruct (f a) as [b|e]; simpl; [|by eexists].
  destruct (collect f l) as [bs|e]; simpl.
  - by rewrite IH.
  - destruct IH as [bs ->]. by eexists.
Qed.

End Run.

(** ** The chart *)

Section Chart.


End Chart.



Section ChartOutput.

Lemma outputs_add_containers cs (w : World) :
  outputs (add_containers cs w) = outputs w.
Proof. reflexivity. Qed.

Lemma truthy_Some output p : truthy output = Some p ↔ output = Some p ∧ p ≠ "".
Proof. destruct output as [[|a s]|]; naive_solver. Qed.

Lemma truthy_None output : truthy output = None ↔ output = None ∨ output = Some "".
Proof. destruct output as [[|a s]|]; naive_solver. Qed.

End ChartOutput.

(** C8, as the code has it.  A call that returns with a non-empty output
    path has written one image, the current figure, has printed that the
    chart was saved to the path given and has opened no display.  The image
    is in a format pyplot writes, in a file that can be written: the path
    itself when the path has an extension, and the path with its trailing
    dots stripped and [.png] appended when it has none.  A call without an
    output path (none, or the empty string) writes no file; when it returns
    it has opened one display of the open figures and printed nothing.  A
    call that raises, while the chart is drawn or in [savefig], has written,
    displayed and printed nothing. *)
Theorem create_bar_chart_output data output (w w' : World) res :
  create_bar_chart data output w = (w', res) →
  (∀ p, output = Some p → p ≠ "" → res = Ok tt →
     written w' = (written w ++ [(plt.image_path p, plt.gcf w')])%list ∧
     stdout w' = (stdout w ++ ["Chart saved to " +:+ p])%list ∧
     displayed w' = displayed w ∧
     plt.image_format p ∈ plt.supported_filetypes ∧
     writable w (plt.image_path p) = true ∧
     (plt.extension p ≠ "" → plt.image_path p = p)) ∧
  (output = None ∨ output = Some "" →
     written w' = written w ∧
     (res = Ok tt →
        displayed w' = (displayed w ++ [figures w'])%list ∧
        stdout w' = stdout w)) ∧
  (∀ e, res = Raise e → outputs w' = outputs w).
Proof.
  unfold create_bar_chart.
  run_script. simpl.
  destruct (getitem Benchmark_File _ _) as [bm|e]; simpl.
  2:{ intros [= <- <-]. split; [done|split; [by intros _|done]]. }
  destruct (getitem Binary _ _) as [bs|e]; simpl.
  2:{ intros [= <- <-]. split; [done|split; [by intros _|done]]. }
  destruct (truediv _ _) as [bw|e]; simpl.
  2:{ intros [= <- <-]. split; [done|split; [by intros _|done]]. }
  rewrite run_draw_loop by done.
  destruct (run_until_raise _ _) as [cs e].
  match goal with |- context [add_containers cs ?w0] =>
    pose proof (outputs_add_containers cs w0) as Hout;
    pose proof (eq_refl : writable (add_containers cs w0) = writable w) as Hwt;
    generalize dependent (add_containers cs w0)
  end.
  intros w1 Hout Hwt. unfold outputs in Hout. simpl in Hout.
  injection Hout as Hwr Hdi Hso.
  destruct e as [e|]; simpl.
  { intros [= <- <-]. unfold outputs. rewrite Hwr, Hdi, Hso.
    split; [done|split; [by intros _|done]]. }
  destruct (collect _ _) as [labels|e]; simpl.
  2:{ intros [= <- <-]. unfold outputs. simpl. rewrite Hwr, Hdi, Hso.
      split; [done|split; [by intros _|done]]. }
  unfold plt.xticks. case_bool_decide; simpl.
  2:{ intros [= <- <-]. unfold outputs. simpl. rewrite Hwr, Hdi, Hso.
      split; [done|split; [by intros _|done]]. }
  destruct (truthy output) as [p|] eqn:Hp; simpl.
  - apply truthy_Some in Hp as [-> Hp].
    unfold plt.savefig, plt.save_error. cbn [writable]. rewrite Hwt.
    case_bool_decide as Hfmt;
      [destruct (writable w (plt.image_path p)) eqn:Hw|];
      intros [= <- <-]; unfold outputs; cbn [written displayed stdout];
      rewrite ?Hwr, ?Hdi, ?Hso.
    + split; [|split]; [|intros [?|?]; [done|congruence]|done].
      intros ? [= <-] _ _. split_and!; try done.
      intros Hext. unfold plt.image_path. by rewrite bool_decide_false.
    + split; [done|split; [|done]]. intros [?|?]; [done|congruence].
    + split; [done|split; [|done]]. intros [?|?]; [done|congruence].
  - intros [= <- <-]; simpl; rewrite ?Hwr, ?Hdi, ?Hso.
    apply truthy_None in Hp. split; [|split].
    + intros p -> Hne. destruct Hp as [?|?]; [done|congruence].
    + done.
    + done.
Qed.

Lemma create_bar_chart_output_witness :
  ∃ w', create_bar_chart table_grid (Some "out.png") initial_world = (w', Ok tt) ∧
        written w' = [("out.png", plt.gcf w')] ∧
        stdout w' = ["Chart saved to out.png"] ∧
        displayed w' = [].
Proof.
  eexists. split; [vm_compute; reflexivity|].
  lazymatch goal with
  | |- written ?W = _ ∧ _ =>
      destruct (proj1 (create_bar_chart_output table_grid (Some "out.png")
                         initial_world W (Ok tt) ltac:(vm_compute; reflexivity))
                  "out.png" eq_refl ltac:(discriminate) eq_refl)
        as (Hwritten & Hstdout & Hdisplayed & _)
  end.
  split; [exact Hwritten|]. split; [exact Hstdout|exact Hdisplayed].
Defined.

(** C8 fails on the code.  With an output path given,
    - rendering the aggregated table of [f.csv] raises while the bars are
      drawn, and rendering a table without rows raises on the division by
      the number of binaries;
    - the path [out.xyz] names a format pyplot does not write, and the path
      [nodir/out.png] a file in a directory that does not exist: [savefig]
      raises;
    in these calls no file is written and nothing is reported.  With the
    path [out], which has no extension, the call returns and reports [out],
    and the image is in the file [out.png]. *)
Lemma output_path_given_nothing_written :
  process_benchmark_data chart_fs ["f.csv"] = Ok table_ragged ∧
  (∃ w' msg, create_bar_chart table_ragged (Some "out.png") initial_world =
               (w', Raise (ValueError msg)) ∧
             written w' = [] ∧ stdout w' = []) ∧
  (∃ w', create_bar_chart table_empty (Some "out.png") initial_world =
           (w', Raise ZeroDivisionError) ∧
         written w' = [] ∧ stdout w' = []) ∧
  (∃ w' msg, create_bar_chart table_grid (Some "out.xyz") initial_world =
               (w', Raise (ValueError msg)) ∧
             written w' = [] ∧ stdout w' = []) ∧
  (∃ w', create_bar_chart table_grid (Some "nodir/out.png") initial_world =
           (w', Raise (FileWriteError "nodir/out.png")) ∧
         written w' = [] ∧ stdout w' = []) ∧
  (∃ w', create_bar_chart table_grid (Some "out") initial_world = (w', Ok tt) ∧
         map fst (written w') = ["out.png"] ∧
         stdout w' = ["Chart saved to out"]).
Proof.
  split; [reflexivity|]. split_and!.
  - do 2 eexists. split; [vm_compute; reflexivity|]. split; reflexivity.
  - eexists. split; [vm_compute; reflexivity|]. split; reflexivity.
  - do 2 eexists. split; [vm_compute; reflexivity|]. split; reflexivity.
  - eexists. split; [vm_compute; reflexivity|]. split; reflexivity.
  - eexists. split; [vm_compute; reflexivity|]. split; reflexivity.
Qed.

(** ** pathlib *)

Section Pathlib.

Lemma append_String a (s t : string) : String a s +:+ t = String a (s +:+ t).
Proof. reflexivity. Qed.

Lemma append_empty_r (s : string) : s +:+ "" = s.
Proof. induction s as [|a s IH]; [done|]. by rewrite append_String, IH. Qed.

Lemma substring_all (n : string) : String.substring 0 (String.length n) n = n.
Proof. induction n as [|b n IHn]; simpl; [done|]. by rewrite IHn. Qed.

Lemma substring_split (n : string) (i : nat) :
  (i ≤ String.length n)%nat →
  String.substring 0 i n +:+ String.substring i (String.length n - i) n = n.
Proof.
  revert i. induction n as [|a n IH]; intros [|i] Hi; simpl in *; try lia.
  - done.
  - change (String a (String.substring 0 (String.length n) n) = String a n).
    by rewrite substring_all.
  - rewrite append_String. f_equal. apply IH. lia.
Qed.

Lemma splits_suffix_Some i n j :
  pathlib.splits_suffix i n = Some j → (j ≤ String.length n)%nat.
Proof.
  unfold pathlib.splits_suffix. destruct i as [i|]; [|done].
  do 2 (case_bool_decide; simpl; try done). intros [= <-]. lia.
Qed.

(** The stem is the file name without its suffix. *)
Lemma stem_suffix (path : string) :
  pathlib.stem path +:+ pathlib.suffix path = pathlib.name path.
Proof.
  unfold pathlib.stem, pathlib.suffix.
  destruct (pathlib.splits_suffix _ _) as [i|] eqn:Hi.
  - apply substring_split. by eapply splits_suffix_Some.
  - apply append_empty_r.
Qed.

Lemma split_sep_nonempty (s : string) : pathlib.split_sep s ≠ [].
Proof.
  destruct s as [|c s]; simpl; [done|].
  destruct (Ascii.eqb c "/"); [done|].
  by destruct (pathlib.split_sep s).
Qed.

Lemma split_sep_join (dir base : string) :
  pathlib.split_sep (dir +:+ String "/" base) =
  (pathlib.split_sep dir ++ pathlib.split_sep base)%list.
Proof.
  induction dir as [|c dir IH]; [done|].
  rewrite append_String. simpl.
  rewrite IH. destruct (Ascii.eqb c "/"); [done|].
  pose proof (split_sep_nonempty dir).
  by destruct (pathlib.split_sep dir).
Qed.

Lemma split_sep_no_sep (s : string) :
  has_sep s = false → pathlib.split_sep s = [s].
Proof.
  induction s as [|c s IH]; simpl; [done|].
  destruct (Ascii.eqb c "/"); [done|]. intros Hs. by rewrite IH.
Qed.

(** The name of a path is its last component: the directories in front of
    it are stripped. *)
Lemma name_strips_directory (dir base : string) :
  has_sep base = false → base ≠ "" → base ≠ "." →
  pathlib.name (dir +:+ String "/" base) = base ∧ pathlib.name base = base.
Proof.
  intros Hsep Hne Hdot. unfold pathlib.name, pathlib.parts.
  rewrite split_sep_join, (split_sep_no_sep base Hsep), filter_app.
  rewrite (filter_cons_True _ base []) by done.
  rewrite filter_nil, last_snoc. simpl. done.
Qed.

Lemma collect_Path {B} (g : string → B) (l : list (option string)) ys :
  collect (fun b => g <$> pathlib.Path b) l = Ok ys →
  ∃ xs, l = map Some xs ∧ ys = map g xs.
Proof.
  revert ys. induction l as [|[s|] l IH]; intros ys; simpl.
  - intros [= <-]. by exists [].
  - destruct (collect _ l) as [ys'|]; simpl; [|done].
    intros [= <-]. destruct (IH _ eq_refl) as (xs & -> & ->).
    by exists (s :: xs).
  - done.
Qed.

End Pathlib.

Section ChartLabels.

Lemma run_until_raise_None {A B} (f : A → result B) l bs :
  run_until_raise f l = (bs, None) → collect f l = Ok bs.
Proof.
  intros Hrun. pose proof (run_until_raise_collect f l) as H.
  destruct (collect f l) as [bs'|e].
  - congruence.
  - destruct H as [? H]. congruence.
Qed.

Lemma binary_container_label data benchmarks bar_width ib c :
  binary_container data benchmarks bar_width ib = Ok c →
  ∃ s, ib.2 = Some s ∧ label c = pathlib.name s.
Proof.
  unfold binary_container.
  destruct (getitem Runtime col_Runtime _) as [heights|e]; [|done].
  destruct ib.2 as [s|]; [|done]. simpl.
  unfold plt.bar_container. destruct (plt.broadcast _ _); [|done].
  intros [= <-]. eauto.
Qed.

Lemma collect_binary_container_labels data benchmarks bar_width ibs cs :
  collect (binary_container data benchmarks bar_width) ibs = Ok cs →
  ∃ names, map snd ibs = map Some names ∧
           map label cs = map pathlib.name names.
Proof.
  revert cs. induction ibs as [|ib ibs IH]; intros cs; simpl.
  - intros [= <-]. by exists [].
  - destruct (binary_container _ _ _ ib) as [c|] eqn:Hc; simpl; [|done].
    destruct (collect _ ibs) as [cs'|]; simpl; [|done].
    intros [= <-]. destruct (IH _ eq_refl) as (names & Hn & Hl).
    apply binary_container_label in Hc as (s & Hs & Hc).
    exists (s :: names). simpl. by rewrite Hs, Hn, Hc, Hl.
Qed.

Lemma snd_enumerate {A} (l : list A) : map snd (enumerate l) = l.
Proof. unfold enumerate. apply snd_zip. by rewrite length_seq. Qed.

End ChartLabels.

(** C9.  When [create_bar_chart] renders a table, the benchmarks and the
    binaries of the table are strings; the tick at position [j] of the x
    axis is labelled with the stem of the [j]-th benchmark (its file name
    without the suffix, see [stem_suffix]); the container of the [i]-th
    binary is labelled with the name of the binary (its last component, see
    [name_strips_directory]), and the legend lists these labels (pyplot
    leaves out a label that is empty or starts with an underscore). *)
Theorem create_bar_chart_labels data output (w w' : World) :
  create_bar_chart data output w = (w', Ok tt) →
  ∃ benchmarks binaries : list string,
    unique (map Benchmark_File (rows data)) = map Some benchmarks ∧
    unique (map Binary (rows data)) = map Some binaries ∧
    fig_xticks (plt.gcf w') =
      Some (zip (seq 0 (length benchmarks)) (map pathlib.stem benchmarks)) ∧
    map label (containers (plt.gcf w')) = map pathlib.name binaries ∧
    fig_legend (plt.gcf w') =
      Some (filter (fun l => plt.in_legend l) (map pathlib.name binaries)).
Proof.
  unfold create_bar_chart.
  run_script. simpl.
  unfold getitem.
  destruct (has_column (columns data) col_Benchmark_File); simpl; [|done].
  destruct (has_column (columns data) col_Binary); simpl; [|done].
  destruct (truediv _ _) as [bw|e]; simpl; [|done].
  rewrite run_draw_loop by done.
  destruct (run_until_raise _ _) as [cs [e|]] eqn:Hrun; simpl; [done|].
  apply run_until_raise_None, collect_binary_container_labels in Hrun
    as (binaries & Hbin & Hlabels).
  rewrite snd_enumerate in Hbin.
  destruct (collect _ _) as [labels|e] eqn:Hticks; simpl; [|done].
  apply collect_Path in Hticks as (benchmarks & Hbm & ->).
  match goal with |- context [add_containers cs ?w0] =>
    pose proof (containers_add_containers cs w0) as Hcs;
    generalize dependent (add_containers cs w0)
  end.
  intros w1 Hcs. simpl in Hcs.
  intros Hfin. unfold plt.xticks in Hfin.
  rewrite bool_decide_true in Hfin by (by rewrite length_seq, length_map, Hbm, length_map).
  simpl in Hfin. exists benchmarks, binaries.
  rewrite Hbm, length_map in Hfin.
  destruct (truthy output) as [p|]; simpl in Hfin.
  - unfold plt.savefig in Hfin.
    destruct (plt.save_error _ p); [done|].
    injection Hfin as <-; simpl. by rewrite Hcs, Hlabels.
  - injection Hfin as <-; simpl. by rewrite Hcs, Hlabels.
Qed.

Lemma create_bar_chart_labels_witness :
  ∃ w', create_bar_chart table_grid None initial_world = (w', Ok tt) ∧
        fig_xticks (plt.gcf w') = Some [(0%nat, "b1"); (1%nat, "b2")] ∧
        fig_legend (plt.gcf w') = Some ["chef"; "jlox"].
Proof.
  eexists. split; [vm_compute; reflexivity|].
  lazymatch goal with
  | |- fig_xticks (plt.gcf ?W) = _ ∧ _ =>
      destruct (create_bar_chart_labels table_grid None initial_world W
                  ltac:(vm_compute; reflexivity))
        as (benchmarks & binaries & Hbm & Hbin & Hticks & _ & Hlegend)
  end.
  assert (unique (map Benchmark_File (rows table_grid)) =
          [Some "bench/b1.lox"; Some "bench/b2.lox"]) as Hu1
    by (vm_compute; reflexivity).
  assert (unique (map Binary (rows table_grid)) =
          [Some "target/chef"; Some "target/jlox"]) as Hu2
    by (vm_compute; reflexivity).
  rewrite Hu1 in Hbm. rewrite Hu2 in Hbin.
  destruct benchmarks as [|b1 [|b2 [|? ?]]]; try discriminate Hbm.
  destruct binaries as [|c1 [|c2 [|? ?]]]; try discriminate Hbin.
  injection Hbm as <- <-. injection Hbin as <- <-. split; assumption.
Defined.

(** ** The chart of a table with a missing run *)

(** C7 fails on the code.  In the aggregated table of [e.csv] binary B has
    run the first benchmark only: its single height is broadcast, and the
    bar of B at the tick of the second benchmark shows the runtime of the
    first.  In the aggregated table of [f.csv] binary B has run two
    benchmarks out of three: drawing its bars raises, after the bars of A
    are drawn, and nothing is written. *)
Theorem create_bar_chart_incomplete_table :
  process_benchmark_data chart_fs ["e.csv"] = Ok table_incomplete ∧
  group_of ("B", "b2.lox") (rows table_incomplete) = [] ∧
  (∃ w', create_bar_chart table_incomplete None initial_world = (w', Ok tt) ∧
         fig_xticks (plt.gcf w') = Some [(0%nat, "b1"); (1%nat, "b2")] ∧
         bar_heights (plt.gcf w') =
           [("A", [Some 1%Q; Some 2%Q]); ("B", [Some 3%Q; Some 3%Q])] ∧
         bar_positions (plt.gcf w') = [[0; 1]; [2 # 5; 7 # 5]]%Q) ∧
  process_benchmark_data chart_fs ["f.csv"] = Ok table_ragged ∧
  (∃ w' msg, create_bar_chart table_ragged (Some "out.png") initial_world =
               (w', Raise (ValueError msg)) ∧
             bar_heights (plt.gcf w') = [("A", [Some 1%Q; Some 2%Q; Some 3%Q])] ∧
             written w' = []).
Proof.
  split; [reflexivity|]. split; [reflexivity|]. split.
  - eexists. split; [vm_compute; reflexivity|].
    split; [|split]; vm_compute; reflexivity.
  - split; [reflexivity|]. do 2 eexists. split; [vm_compute; reflexivity|].
    split; vm_compute; reflexivity.
Qed.

(** ** The chart of a table whose binaries have run the same benchmarks *)

Section Aligned.

Lemma broadcast_same n : plt.broadcast n n = Some n.
Proof. unfold plt.broadcast. by rewrite bool_decide_true. Qed.

Lemma broadcast_to_same {A} (n : nat) (l : list A) :
  length l = n → plt.broadcast_to n l = l.
Proof. intros <-. by destruct l as [|a [|b l]]. Qed.

Lemma run_until_raise_all_Ok {A B} (f : A → result B) (g : A → B) l :
  Forall (fun a => f a = Ok (g a)) l →
  run_until_raise f l = (map g l, None).
Proof.
  induction 1 as [|a l Ha _ IH]; simpl; [done|]. by rewrite Ha, IH.
Qed.

Lemma binary_container_grid data benchmarks bar_width i (b : string) :
  has_column (columns data) col_Runtime = true →
  length (rows (select_binary data (Some b))) = length benchmarks →
  binary_container data benchmarks bar_width (i, Some b) =
  Ok (grid_container data (length benchmarks) bar_width (i, Some b)).
Proof.
  intros Hcol Hlen. unfold binary_container, getitem. cbn [fst snd].
  change (columns (select_binary data (Some b))) with (columns data).
  rewrite Hcol. cbn [mbind result_bind fmap result_fmap pathlib.Path snd fst].
  unfold plt.bar_container.
  rewrite !length_map, length_seq, Hlen, broadcast_same.
  rewrite !broadcast_to_same by (by rewrite ?length_map, ?length_seq).
  reflexivity.
Qed.

Lemma lookup_enumerate {A} (l : list A) i x :
  l !! i = Some x → enumerate l !! i = Some (i, x).
Proof.
  intros Hi. unfold enumerate. rewrite lookup_zip_with.
  rewrite lookup_seq_lt by (by eapply lookup_lt_Some). simpl. by rewrite Hi.
Qed.

Lemma collect_Path_Some {B} (g : string → B) (xs : list string) :
  collect (fun b => g <$> pathlib.Path b) (map Some xs) = Ok (map g xs).
Proof. induction xs as [|x xs IH]; simpl; [done|]. by rewrite IH. Qed.

Lemma cell_eqb_Some (x : option string) (b : string) :
  cell_eqb x (Some b) ↔ x = Some b.
Proof.
  destruct x as [a|]; simpl; [|naive_solver].
  rewrite bool_decide_spec. naive_solver.
Qed.

Lemma aligned_length data (bms : list string) (b : string) :
  aligned data (map Some bms) → Some b ∈ map Binary (rows data) →
  length (rows (select_binary data (Some b))) = length (map Some bms).
Proof.
  intros Hal Hb. rewrite <-(Hal b Hb). by rewrite length_map.
Qed.

(** The run of [create_bar_chart] on an aligned table: it returns, and the
    figure holds one container per binary, with one bar per benchmark. *)
Lemma create_bar_chart_aligned_containers data output (w : World)
    (bins bms : list string) :
  Forall (fun c => has_column (columns data) c = true) required_columns →
  unique (map Binary (rows data)) = map Some bins →
  unique (map Benchmark_File (rows data)) = map Some bms →
  bins ≠ [] →
  aligned data (map Some bms) →
  can_emit w output →
  ∃ w', create_bar_chart data output w = (w', Ok tt) ∧
        containers (plt.gcf w') =
          map (grid_container data (length bms)
                 ((8 # 10) / inject_Z (Z.of_nat (length bins))))
              (enumerate (map Some bins)).
Proof.
  intros Hcols Hbins Hbms Hne Hal Hemit.
  apply Forall_cons in Hcols as [Hc1 Hcols].
  apply Forall_cons in Hcols as [Hc2 Hcols].
  apply Forall_cons in Hcols as [Hc3 _].
  unfold create_bar_chart.
  run_script. simpl.
  unfold getitem. rewrite Hc1, Hc2. simpl. rewrite Hbins, Hbms.
  rewrite (length_map Some bins).
  destruct bins as [|b0 bins0] eqn:Ebins; [done|]. rewrite <-Ebins in *.
  assert (truediv (8 # 10) (length bins) =
          Ok ((8 # 10) / inject_Z (Z.of_nat (length bins)))%Q) as ->
    by by rewrite Ebins.
  rewrite run_draw_loop by done.
  rewrite (run_until_raise_all_Ok _
             (grid_container data (length bms)
                ((8 # 10) / inject_Z (Z.of_nat (length bins))))).
  2:{ apply Forall_forall. intros [i ob] Hin.
      assert (ob ∈ map Some bins) as Hob.
      { rewrite <-(snd_enumerate (map Some bins)).
        by apply (list_elem_of_fmap_2 snd) in Hin. }
      apply list_elem_of_fmap in Hob as (b & -> & Hb).
      rewrite <-(length_map Some bms). apply binary_container_grid; [done|].
      apply aligned_length; [done|].
      apply elem_of_unique. rewrite Hbins. by apply list_elem_of_fmap_2. }
  simpl. rewrite collect_Path_Some. simpl.
  unfold plt.xticks.
  rewrite bool_decide_true by (by rewrite length_seq, !length_map).
  simpl. destruct (truthy output) as [p|] eqn:Hp; simpl.
  - pose proof (Hemit p Hp) as Hsave.
    unfold plt.savefig, plt.save_error in *. cbn [writable].
    destruct (bool_decide _); [|done].
    destruct (writable w _); [|done].
    eexists; (split; [reflexivity|]); simpl.
    by rewrite containers_add_containers.
  - eexists; (split; [reflexivity|]); simpl.
    by rewrite containers_add_containers.
Qed.

End Aligned.

(** The chart of an aligned table.  When every binary of the table
    has its rows in the order of the benchmarks on the x axis,
    [create_bar_chart] returns; its figure has one container per binary and
    each container one bar per benchmark; the bar of the [i]-th binary for
    the [j]-th benchmark is centred at [j + i * bar_width], is [bar_width]
    wide and as high as the runtime of a row of the table with that binary
    and that benchmark. *)
Theorem create_bar_chart_aligned data output (w : World)
    (bins bms : list string) :
  Forall (fun c => has_column (columns data) c = true) required_columns →
  unique (map Binary (rows data)) = map Some bins →
  unique (map Benchmark_File (rows data)) = map Some bms →
  bins ≠ [] →
  aligned data (map Some bms) →
  can_emit w output →
  ∃ w', create_bar_chart data output w = (w', Ok tt) ∧
        length (containers (plt.gcf w')) = length bins ∧
        Forall (fun c => length (patches c) = length bms)
          (containers (plt.gcf w')) ∧
        ∀ i j b m, bins !! i = Some b → bms !! j = Some m →
          ∃ r, r ∈ rows data ∧ row_key r = Some (b, m) ∧
               bar_at (plt.gcf w') i j =
               Some (mkRectangle
                       (bar_position
                          ((8 # 10) / inject_Z (Z.of_nat (length bins))) i j)
                       (Runtime r)
                       ((8 # 10) / inject_Z (Z.of_nat (length bins)))).
Proof.
  intros Hcols Hbins Hbms Hne Hal Hemit.
  destruct (create_bar_chart_aligned_containers data output w bins bms)
    as (w' & Hrun & Hcs); try done.
  exists w'. split; [done|]. rewrite Hcs.
  assert (∀ b, b ∈ bins → Some b ∈ map Binary (rows data)) as Hin.
  { intros b Hb. apply elem_of_unique. rewrite Hbins.
    by apply list_elem_of_fmap_2. }
  split_and!.
  - unfold enumerate.
    by rewrite length_map, length_zip_with, length_seq, Nat.min_id, length_map.
  - apply Forall_fmap, Forall_forall. intros [i ob] Hib.
    assert (ob ∈ map Some bins) as Hob.
    { rewrite <-(snd_enumerate (map Some bins)).
      by apply (list_elem_of_fmap_2 snd) in Hib. }
    apply list_elem_of_fmap in Hob as (b & -> & Hb).
    unfold grid_container, compose. cbn [patches fst snd].
    rewrite length_zip_with, !length_map, length_seq.
    rewrite (aligned_length data bms b Hal (Hin b Hb)), length_map. lia.
  - intros i j b m Hi Hj.
    assert (b ∈ bins) as Hb by by eapply list_elem_of_lookup_2.
    pose proof (aligned_length data bms b Hal (Hin b Hb)) as Hlen.
    rewrite length_map in Hlen.
    destruct (lookup_lt_is_Some_2 (rows (select_binary data (Some b))) j)
      as [r Hr].
    { rewrite Hlen. by eapply lookup_lt_Some. }
    exists r.
    assert (r ∈ rows (select_binary data (Some b))) as Hsel
      by by eapply list_elem_of_lookup_2.
    apply list_elem_of_filter in Hsel as [Hbin%cell_eqb_Some Hrows].
    split; [done|]. split.
    + pose proof (Hal b (Hin b Hb)) as Hbench.
      apply (f_equal (fun l => l !! j)) in Hbench.
      rewrite !list_lookup_fmap, Hr, Hj in Hbench. simpl in Hbench.
      injection Hbench as Hbench. unfold row_key. by rewrite Hbin, Hbench.
    + unfold bar_at. rewrite Hcs, list_lookup_fmap.
      rewrite (lookup_enumerate _ i (Some b))
        by (by rewrite list_lookup_fmap, Hi).
      change (zip_with
                (fun p h => mkRectangle p h
                   ((8 # 10) / inject_Z (Z.of_nat (length bins))))
                (map (bar_position
                        ((8 # 10) / inject_Z (Z.of_nat (length bins))) i)
                   (seq 0 (length bms)))
                (map Runtime (rows (select_binary data (Some b)))) !! j =
              Some (mkRectangle
                      (bar_position
                         ((8 # 10) / inject_Z (Z.of_nat (length bins))) i j)
                      (Runtime r)
                      ((8 # 10) / inject_Z (Z.of_nat (length bins))))).
      rewrite lookup_zip_with, !list_lookup_fmap, Hr.
      rewrite lookup_seq_lt by (by eapply lookup_lt_Some). done.
Qed.

(** ** Aggregated tables with a full grid are aligned *)

Section Grid.

Lemma string_lt_irrefl (a : string) : ¬ string_lt a a.
Proof. unfold string_lt. by rewrite string_compare_refl. Qed.

Lemma string_lt_trans (a b c : string) :
  string_lt a b → string_lt b c → string_lt a c.
Proof. apply string_compare_trans. Qed.

(** Among the keys of one binary the order is the order of the benchmarks. *)
Lemma sorted_block_snd (b : string) (l : list key) :
  StronglySorted key_lt l → Forall (fun k => k.1 = b) l →
  StronglySorted string_lt (map snd l).
Proof.
  induction 1 as [|a l Hs IH Hall]; intros Hb; [constructor|].
  apply Forall_cons in Hb as [Ha Hb]. simpl. constructor; [by apply IH|].
  apply Forall_fmap, Forall_forall. intros y Hy.
  eapply Forall_forall in Hall, Hb; [|done..].
  apply key_lt_lexicographic in Hall as [Hlt|[_ Hlt]]; [|done].
  rewrite Ha, Hb in Hlt. by apply string_lt_irrefl in Hlt.
Qed.

(** In an ascending list of keys, the keys of the least binary come first. *)
Lemma sorted_head_block (b0 : string) (l : list key) :
  StronglySorted key_lt l →
  Forall (fun k => k.1 = b0 ∨ string_lt b0 k.1) l →
  l = (filter (fun k => k.1 = b0) l ++ filter (fun k => k.1 ≠ b0) l)%list.
Proof.
  induction 1 as [|a l Hs IH Hall]; intros Hb0; [done|].
  apply Forall_cons in Hb0 as [Ha Hb0].
  destruct (decide (a.1 = b0)) as [Heq|Hne].
  - rewrite filter_cons_True by done.
    rewrite (filter_cons_False (fun k => k.1 ≠ b0)) by naive_solver.
    simpl. f_equal. by apply IH.
  - destruct Ha as [?|Ha]; [done|].
    assert (Forall (fun k : key => k.1 ≠ b0) l) as Hl.
    { apply Forall_forall. intros y Hy Hyb.
      eapply Forall_forall in Hall; [|done].
      apply key_lt_lexicographic in Hall as [Hlt|[Heq _]].
      - apply (string_lt_irrefl b0). rewrite Hyb in Hlt.
        by eapply string_lt_trans.
      - apply (string_lt_irrefl b0). by rewrite Heq, Hyb in Ha. }
    rewrite filter_cons_False by done.
    rewrite (filter_cons_True (fun k => k.1 ≠ b0)) by done.
    assert (filter (fun k : key => k.1 = b0) l = []) as ->.
    { clear -Hl. induction Hl as [|y l Hy _ IH]; [done|].
      by rewrite filter_cons_False. }
    simpl. f_equal. clear -Hl. induction Hl as [|y l Hy _ IH]; [done|].
    rewrite filter_cons_True by done. by f_equal.
Qed.

(** The keys of a full grid: every binary has the benchmarks in the order
    of their first appearance in the table. *)
Lemma grid_aligned_keys (ks : list key) :
  StronglySorted key_lt ks →
  (∀ b m, b ∈ map fst ks → m ∈ map snd ks → (b, m) ∈ ks) →
  ∀ b, b ∈ map fst ks →
    map snd (filter (fun k => k.1 = b) ks) = unique (map snd ks).
Proof.
  intros Hs Hfull.
  assert (∀ b, b ∈ map fst ks →
            StronglySorted string_lt (map snd (filter (fun k => k.1 = b) ks)) ∧
            ∀ m, m ∈ map snd (filter (fun k => k.1 = b) ks) ↔ m ∈ map snd ks)
    as Hblock.
  { intros b Hb. split.
    - apply (sorted_block_snd b).
      + by apply strictly_sorted_filter.
      + apply Forall_forall. by intros k [? _]%list_elem_of_filter.
    - intros m. split.
      + intros (k & -> & [_ Hk]%list_elem_of_filter)%list_elem_of_fmap.
        by apply list_elem_of_fmap_2.
      + intros Hm. apply list_elem_of_fmap. exists (b, m). split; [done|].
        apply list_elem_of_filter. split; [done|]. by apply Hfull. }
  intros b Hb. destruct ks as [|k0 ks']; [by apply elem_of_nil in Hb|].
  remember (k0 :: ks') as ks.
  assert (k0.1 ∈ map fst ks) as Hb0 by (subst ks; left).
  destruct (Hblock b Hb) as [Hsb Hinb].
  destruct (Hblock k0.1 Hb0) as [Hs0 Hin0].
  rewrite (strictly_sorted_ext string_lt string_lt_irrefl string_lt_trans
             _ _ Hsb Hs0) by (intros m; by rewrite Hinb, Hin0).
  assert (ks = (filter (fun k => k.1 = k0.1) ks ++
                filter (fun k => k.1 ≠ k0.1) ks)%list) as Hsplit.
  { apply sorted_head_block; [done|]. subst ks.
    apply StronglySorted_inv in Hs as [_ Hall].
    constructor; [by left|]. eapply Forall_impl; [exact Hall|].
    intros k [Hlt|[Heq _]]%key_lt_lexicographic; [by right|by left]. }
  assert (map snd ks =
          (map snd (filter (fun k => k.1 = k0.1) ks) ++
           map snd (filter (fun k => k.1 ≠ k0.1) ks))%list) as Hsnd
    by by rewrite <-fmap_app, <-Hsplit.
  rewrite Hsnd. symmetry. apply unique_app_absorb.
  - by eapply strictly_sorted_NoDup;
      [apply string_lt_irrefl|].
  - intros m (k & -> & [_ Hk]%list_elem_of_filter)%list_elem_of_fmap.
    apply Hin0. by apply list_elem_of_fmap_2.
Qed.

End Grid.

Section FullGrid.

Lemma Binary_group_rows rs (ks : list key) :
  map Binary (map (group_row rs) ks) = map Some (map fst ks).
Proof. rewrite <-!list_fmap_compose. by apply list_fmap_ext. Qed.

Lemma Benchmark_File_group_rows rs (ks : list key) :
  map Benchmark_File (map (group_row rs) ks) = map Some (map snd ks).
Proof. rewrite <-!list_fmap_compose. by apply list_fmap_ext. Qed.

Lemma select_binary_group_rows cols rs (ks : list key) (b : string) :
  rows (select_binary {| columns := cols; rows := map (group_row rs) ks |}
          (Some b)) =
  map (group_row rs) (filter (fun k => k.1 = b) ks).
Proof.
  unfold select_binary. cbn [rows].
  induction ks as [|k ks IH]; [done|]. cbn [map].
  rewrite !filter_cons, IH.
  destruct (decide (k.1 = b)) as [Hk|Hk].
  - rewrite decide_True; [done|]. by apply cell_eqb_Some; rewrite <-Hk.
  - rewrite decide_False; [done|]. intros Heq%cell_eqb_Some.
    by injection Heq.
Qed.

Lemma elem_of_group_rows rs (ks : list key) r k :
  r ∈ map (group_row rs) ks → row_key r = Some k →
  k ∈ ks ∧ r = group_row rs k.
Proof.
  intros (k' & -> & Hk')%list_elem_of_fmap. rewrite row_key_group_row.
  by intros [= <-].
Qed.

End FullGrid.

(** X15.  The chart of an aggregated table with a full grid.  When the
    aggregated table is not empty, every binary in it has a row for every
    benchmark in it, and the chart can be emitted (there is no output path,
    or [savefig] accepts the format of the path and can write the file),
    [create_bar_chart] returns; its figure has one container per distinct
    binary and each container one bar per distinct benchmark; the bar of
    the [i]-th binary for the [j]-th benchmark is centred at
    [j + i * bar_width], is [bar_width] wide, and its height is the mean
    runtime of that binary for that benchmark. *)
Theorem create_bar_chart_full_grid fs files R output (w : World) :
  process_benchmark_data fs files = Ok R →
  rows R ≠ [] →
  complete_grid (rows R) →
  can_emit w output →
  ∃ (bins bms : list string) (w' : World),
    unique (map Binary (rows R)) = map Some bins ∧
    unique (map Benchmark_File (rows R)) = map Some bms ∧
    create_bar_chart R output w = (w', Ok tt) ∧
    length (containers (plt.gcf w')) = length bins ∧
    Forall (fun c => length (patches c) = length bms)
      (containers (plt.gcf w')) ∧
    ∀ i j b m, bins !! i = Some b → bms !! j = Some m →
      bar_at (plt.gcf w') i j =
      Some (mkRectangle
              (bar_position ((8 # 10) / inject_Z (Z.of_nat (length bins))) i j)
              (arithmetic_mean
                 (runtime_values (group_of (b, m) (input_rows fs files))))
              ((8 # 10) / inject_Z (Z.of_nat (length bins)))).
Proof.
  intros HR Hne Hfull Hemit.
  apply process_benchmark_data_rows in HR as [Hcols Hrows].
  destruct R as [cols rws]. simpl in *. subst cols.
  set (rs := input_rows fs files) in *.
  pose proof (sorted_uniques_sorted (omap row_key rs)) as Hsorted.
  remember (sorted_uniques (omap row_key rs)) as ks eqn:Eks. clear Eks.
  subst rws.
  assert (∀ b m, b ∈ map fst ks → m ∈ map snd ks → (b, m) ∈ ks) as Hgrid.
  { intros b m (k1 & -> & Hk1)%list_elem_of_fmap (k2 & -> & Hk2)%list_elem_of_fmap.
    destruct (Hfull k1.1 k2.2 (group_row rs k1) (group_row rs k2))
      as (r & Hr & Hkey); try done; try by apply list_elem_of_fmap_2.
    by destruct (elem_of_group_rows _ _ _ _ Hr Hkey). }
  exists (unique (map fst ks)), (unique (map snd ks)).
  destruct (create_bar_chart_aligned
              {| columns := required_columns; rows := map (group_row rs) ks |}
              output w (unique (map fst ks)) (unique (map snd ks)))
    as (w' & Hrun & Hlen & Hpatches & Hbars).
  - by repeat constructor.
  - cbn [rows]. rewrite Binary_group_rows. apply unique_fmap. apply _.
  - cbn [rows]. rewrite Benchmark_File_group_rows. apply unique_fmap. apply _.
  - intros Hu%unique_nil_inv. by destruct ks.
  - intros b Hb. cbn [rows] in Hb. rewrite Binary_group_rows in Hb.
    apply list_elem_of_fmap in Hb as (b' & [= <-] & Hb).
    rewrite select_binary_group_rows, Benchmark_File_group_rows.
    f_equal. by apply grid_aligned_keys.
  - done.
  - exists w'. cbn [rows]. rewrite Binary_group_rows, Benchmark_File_group_rows.
    rewrite !(unique_fmap Some). split_and!; try done.
    intros i j b m Hi Hj. destruct (Hbars i j b m Hi Hj) as (r & Hr & Hkey & ->).
    cbn [rows] in Hr.
    destruct (elem_of_group_rows _ _ _ _ Hr Hkey) as [_ ->]. done.
Qed.

Lemma create_bar_chart_full_grid_witness :
  process_benchmark_data chart_fs ["d.csv"] = Ok table_grid ∧
  complete_grid (rows table_grid) ∧
  can_emit initial_world (Some "out.png") ∧
  ∃ (bins bms : list string) (w' : World),
    unique (map Binary (rows table_grid)) = map Some bins ∧
    unique (map Benchmark_File (rows table_grid)) = map Some bms ∧
    create_bar_chart table_grid (Some "out.png") initial_world = (w', Ok tt) ∧
    length (containers (plt.gcf w')) = length bins ∧
    Forall (fun c => length (patches c) = length bms)
      (containers (plt.gcf w')) ∧
    ∀ i j b m, bins !! i = Some b → bms !! j = Some m →
      bar_at (plt.gcf w') i j =
      Some (mkRectangle
              (bar_position ((8 # 10) / inject_Z (Z.of_nat (length bins))) i j)
              (arithmetic_mean
                 (runtime_values
                    (group_of (b, m) (input_rows chart_fs ["d.csv"]))))
              ((8 # 10) / inject_Z (Z.of_nat (length bins)))).
Proof.
  split; [reflexivity|].
  assert (complete_grid (rows table_grid)) as Hgrid.
  { intros b m r1 r2 H1 H2 Hb Hm. simpl in H1, H2.
    repeat (apply elem_of_cons in H1 as [->|H1]);
      try (by apply elem_of_nil in H1);
      repeat (apply elem_of_cons in H2 as [->|H2]);
      try (by apply elem_of_nil in H2);
      injection Hb as <-; injection Hm as <-;
      eexists (record _ _ _); (split; [|reflexivity]); simpl;
      solve [eauto 6 using list_elem_of_here, list_elem_of_further]. }
  split; [exact Hgrid|].
  assert (can_emit initial_world (Some "out.png")) as Hemit.
  { intros p [= <-]. vm_compute. reflexivity. }
  split; [exact Hemit|].
  refine (create_bar_chart_full_grid chart_fs ["d.csv"] table_grid
            (Some "out.png") initial_world eq_refl _ Hgrid Hemit).
  discriminate.
Defined.

(** * Further properties *)

(** ** Reading the files *)

Section Reading.

Lemma collect_first_Raise {A B} (f : A → result B) pre a post e :
  Forall (fun x => ∃ b, f x = Ok b) pre → f a = Raise e →
  collect f (pre ++ a :: post)%list = Raise e.
Proof.
  intros Hpre Ha. induction Hpre as [|x pre [b Hx] _ IH]; simpl.
  - by rewrite Ha.
  - by rewrite Hx, IH.
Qed.

End Reading.

(** X1.  The files are read in order: when a file cannot be read and the
    files before it can, the aggregation raises the read error of that file,
    whatever comes after it. *)
Theorem process_benchmark_data_unreadable fs (pre post : list string) (p : string) :
  Forall (fun q => is_Some (fs q)) pre → fs p = None →
  process_benchmark_data fs (pre ++ p :: post) = Raise (FileReadError p).
Proof.
  intros Hpre Hp. unfold process_benchmark_data.
  rewrite (collect_first_Raise _ pre p post (FileReadError p)); [done| |].
  - eapply Forall_impl; [exact Hpre|]. intros q [d Hd]. exists d.
    by apply read_csv_Ok.
  - unfold pd.read_csv. by rewrite Hp.
Qed.

Lemma process_benchmark_data_unreadable_witness :
  Forall (fun q => is_Some (sample_fs q)) ["a.csv"] ∧
  sample_fs "missing.csv" = None ∧
  process_benchmark_data sample_fs ["a.csv"; "missing.csv"; "b.csv"] =
    Raise (FileReadError "missing.csv").
Proof.
  assert (Forall (fun q => is_Some (sample_fs q)) ["a.csv"]) as Hpre
    by (repeat constructor; by eexists).
  split; [exact Hpre|]. split; [reflexivity|].
  exact (process_benchmark_data_unreadable sample_fs ["a.csv"] ["b.csv"]
           "missing.csv" Hpre eq_refl).
Defined.

(** X2.  What a returned table tells about the files: when the
    aggregation returns, there is at least one file, every file has been
    read, and each of the three required columns is in at least one of the
    files. *)
Theorem process_benchmark_data_Ok_only_if fs files R :
  process_benchmark_data fs files = Ok R →
  files ≠ [] ∧
  (∀ p, p ∈ files → is_Some (fs p)) ∧
  (∀ c, c ∈ required_columns →
        ∃ p df, p ∈ files ∧ fs p = Some df ∧ c ∈ columns df).
Proof.
  unfold process_benchmark_data.
  destruct (collect (pd.read_csv fs) files) as [dfs|] eqn:Hdfs; simpl; [|done].
  apply collect_Ok in Hdfs.
  destruct dfs as [|df dfs']; [done|]. remember (df :: dfs') as dfs.
  assert (pd.concat dfs = Ok {| columns := unique (flat_map columns dfs);
                                rows := flat_map frame_rows dfs |}) as ->
    by by subst dfs.
  simpl. unfold pd.groupby_mean. simpl.
  destruct (has_column _ col_Binary) eqn:H1; simpl; [|done].
  destruct (has_column _ col_Benchmark_File) eqn:H2; simpl; [|done].
  destruct (has_column _ col_Runtime) eqn:H3; simpl; [|done].
  intros _. split_and!.
  - intros ->. apply Forall2_nil_inv_l in Hdfs. by subst dfs.
  - intros p Hp. apply list_elem_of_lookup in Hp as [i Hi].
    destruct (Forall2_lookup_l _ _ _ _ _ Hdfs Hi) as (d & _ & Hd).
    apply read_csv_Ok in Hd. by rewrite Hd.
  - assert (∀ c, has_column (unique (flat_map columns dfs)) c = true →
                 ∃ p d, p ∈ files ∧ fs p = Some d ∧ c ∈ columns d) as Hfind.
    { intros c Hc. apply bool_decide_eq_true in Hc.
      rewrite elem_of_unique, list_elem_of_In, in_flat_map in Hc.
      destruct Hc as (d & Hd%list_elem_of_In & Hcd%list_elem_of_In).
      apply list_elem_of_lookup in Hd as [i Hi].
      destruct (Forall2_lookup_r _ _ _ _ _ Hdfs Hi) as (p & Hp & Hread).
      apply read_csv_Ok in Hread. exists p, d.
      split; [by eapply list_elem_of_lookup_2|done]. }
    intros c Hc. unfold required_columns in Hc.
    repeat (apply elem_of_cons in Hc as [->|Hc]); [by apply Hfind..|].
    by apply elem_of_nil in Hc.
Qed.

Lemma process_benchmark_data_Ok_only_if_witness :
  ∃ R, process_benchmark_data sample_fs ["a.csv"; "c.csv"] = Ok R ∧
       (∀ p, p ∈ ["a.csv"; "c.csv"] → is_Some (sample_fs p)) ∧
       (∀ c, c ∈ required_columns →
             ∃ p df, p ∈ ["a.csv"; "c.csv"] ∧ sample_fs p = Some df ∧
                     c ∈ columns df).
Proof.
  eexists. split; [vm_compute; reflexivity|].
  exact (proj2 (process_benchmark_data_Ok_only_if sample_fs ["a.csv"; "c.csv"] _
                  ltac:(vm_compute; reflexivity))).
Defined.

(** ** What the aggregated table depends on *)

Section Dependence.

Lemma group_of_keyed k rs : group_of k (keyed rs) = group_of k rs.
Proof.
  unfold group_of, keyed. induction rs as [|r rs IH]; [done|].
  rewrite (filter_cons (fun r => is_Some (row_key r))).
  destruct (decide (is_Some (row_key r))) as [Hr|Hr].
  - by rewrite !filter_cons, IH.
  - rewrite IH, (filter_cons_False _ r rs); [done|].
    intros Hk. apply Hr. by rewrite Hk.
Qed.

Lemma omap_cons {A B} (f : A → option B) (x : A) (l : list A) :
  omap f (x :: l) = from_option (fun y => y :: omap f l) (omap f l) (f x).
Proof. simpl. by destruct (f x). Qed.

Lemma omap_row_key_keyed rs : omap row_key (keyed rs) = omap row_key rs.
Proof.
  unfold keyed. induction rs as [|r rs IH]; [done|].
  rewrite (omap_cons _ r rs), <-IH.
  destruct (row_key r) as [k|] eqn:Hk.
  - rewrite filter_cons_True by (by rewrite Hk).
    by rewrite omap_cons, Hk.
  - rewrite filter_cons_False; [done|]. rewrite Hk. by intros [? ?].
Qed.

Lemma aggregated_rows_keyed rs :
  map (group_row rs) (sorted_uniques (omap row_key rs)) =
  map (group_row (keyed rs)) (sorted_uniques (omap row_key (keyed rs))).
Proof.
  rewrite omap_row_key_keyed. apply list_fmap_ext. intros i k _.
  unfold group_row. by rewrite group_of_keyed.
Qed.

Lemma sorted_uniques_sorted_id (ks : list key) :
  StronglySorted key_lt ks → sorted_uniques ks = ks.
Proof.
  intros Hs. apply sorted_ext; [apply sorted_uniques_sorted|done|].
  apply elem_of_sorted_uniques.
Qed.

Lemma reindex_required (r : Row) : reindex required_columns r = r.
Proof. by destruct r. Qed.

Lemma frame_rows_required rs :
  frame_rows {| columns := required_columns; rows := rs |} = rs.
Proof.
  unfold frame_rows. simpl. induction rs as [|r rs IH]; [done|].
  simpl. by rewrite reindex_required, IH.
Qed.

Lemma omap_row_key_group_rows rs (ks : list key) :
  omap row_key (map (group_row rs) ks) = ks.
Proof.
  induction ks as [|k ks IH]; [done|]. cbn [map].
  by rewrite omap_cons, row_key_group_row, IH.
Qed.

Lemma groupby_mean_required rs :
  pd.groupby_mean {| columns := required_columns; rows := rs |} =
  Ok {| columns := required_columns;
        rows := map (group_row rs) (sorted_uniques (omap row_key rs)) |}.
Proof.
  destruct (pd.groupby_mean _) as [R|e] eqn:E.
  - apply groupby_mean_rows in E as [Hc Hr]. destruct R as [cols rws].
    simpl in *. by subst.
  - done.
Qed.

End Dependence.

(** X3.  The aggregated table depends on the rows that carry a key only,
    in the order in which they are read: a row whose Binary or Benchmark
    File cell is missing never counts, and how the rows are spread over the
    files does not matter. *)
Theorem process_benchmark_data_keyed_rows fs files R fs' files' R' :
  process_benchmark_data fs files = Ok R →
  process_benchmark_data fs' files' = Ok R' →
  keyed (input_rows fs files) = keyed (input_rows fs' files') →
  R = R'.
Proof.
  intros [Hc Hr]%process_benchmark_data_rows
         [Hc' Hr']%process_benchmark_data_rows Hkeyed.
  destruct R as [cols rws], R' as [cols' rws']. simpl in *. subst cols cols'.
  f_equal. by rewrite Hr, Hr', aggregated_rows_keyed, Hkeyed,
    <-aggregated_rows_keyed.
Qed.

Lemma process_benchmark_data_keyed_rows_witness :
  keyed (input_rows keyed_fs ["g.csv"]) = keyed (input_rows keyed_fs ["h.csv"]) ∧
  ∃ R R', process_benchmark_data keyed_fs ["g.csv"] = Ok R ∧
          process_benchmark_data keyed_fs ["h.csv"] = Ok R' ∧
          R = R'.
Proof.
  split; [reflexivity|]. do 2 eexists. split; [reflexivity|].
  split; [reflexivity|].
  exact (process_benchmark_data_keyed_rows keyed_fs ["g.csv"] _ keyed_fs
           ["h.csv"] _ eq_refl eq_refl eq_refl).
Defined.

(** X4.  Aggregating is idempotent: the aggregated table, read back as the
    only file, is aggregated to itself. *)
Theorem process_benchmark_data_idempotent fs files R fs' (p : string) :
  process_benchmark_data fs files = Ok R →
  fs' p = Some R →
  process_benchmark_data fs' [p] = Ok R.
Proof.
  intros [Hc Hr]%process_benchmark_data_rows Hp.
  destruct R as [cols rws]. simpl in *. subst cols.
  unfold process_benchmark_data. simpl. unfold pd.read_csv. rewrite Hp. simpl.
  rewrite frame_rows_required, app_nil_r.
  change (pd.groupby_mean {| columns := required_columns; rows := rws |}
          ≫= (fun avg_runtime => Ok avg_runtime) =
          Ok {| columns := required_columns; rows := rws |}).
  rewrite groupby_mean_required. simpl. do 2 f_equal.
  set (rs := input_rows fs files) in *.
  pose proof (sorted_uniques_sorted (omap row_key rs)) as Hs.
  pose proof (sorted_uniques_NoDup (omap row_key rs)) as Hnd.
  remember (sorted_uniques (omap row_key rs)) as ks eqn:Eks. clear Eks.
  subst rws. rewrite omap_row_key_group_rows, sorted_uniques_sorted_id by done.
  apply list_fmap_ext. intros i [b f] Hi. unfold group_row at 1.
  rewrite group_of_group_rows by done.
  rewrite bool_decide_true by (by eapply list_elem_of_lookup_2).
  unfold group_row. simpl. f_equal.
  destruct (arithmetic_mean (runtime_values (group_of (b, f) rs))) as [m|];
    [apply arithmetic_mean_singleton|done].
Qed.

Lemma process_benchmark_data_idempotent_witness :
  ∃ R, process_benchmark_data sample_fs ["b.csv"; "a.csv"] = Ok R ∧
       process_benchmark_data (fun _ => Some R) ["again.csv"] = Ok R.
Proof.
  eexists. split; [reflexivity|].
  exact (process_benchmark_data_idempotent sample_fs ["b.csv"; "a.csv"] _
           (fun _ => Some _) "again.csv" eq_refl eq_refl).
Defined.

(** ** The run of create_bar_chart, stage by stage *)

Section ChartRun.

Lemma collect_Ok_length {A B} (f : A → result B) l bs :
  collect f l = Ok bs → length bs = length l.
Proof. intros H%collect_Ok. symmetry. by eapply Forall2_length. Qed.

Lemma create_bar_chart_unfold data output (w : World) :
  create_bar_chart data output w = chart_run data output w.
Proof.
  unfold create_bar_chart, chart_run, chart_plan. run_script. simpl.
  destruct (getitem Benchmark_File _ _) as [bm|e]; simpl; [|done].
  destruct (getitem Binary _ _) as [bs|e]; simpl; [|done].
  destruct (truediv _ _) as [bw|e]; simpl; [|done].
  rewrite run_draw_loop by done.
  destruct (run_until_raise _ _) as [cs [e|]]; simpl; [done|].
  destruct (collect _ _) as [labels|e] eqn:Hl; simpl; [|done].
  unfold plt.xticks.
  rewrite bool_decide_true
    by (by rewrite length_seq, (collect_Ok_length _ _ _ Hl)).
  simpl. unfold emitted. destruct (truthy output) as [p|]; [|done].
  unfold plt.savefig, plt.save_error. simpl.
  destruct (bool_decide _); [|done]. by destruct (writable w _).
Qed.

End ChartRun.

(** ** The exceptions of create_bar_chart *)

Section ChartExceptions.

Lemma binary_container_Raise data benchmarks bar_width ib e :
  binary_container data benchmarks bar_width ib = Raise e →
  (e = KeyError col_Runtime ∧ has_column (columns data) col_Runtime = false)
  ∨ (e = TypeError ∧ ib.2 = None)
  ∨ (∃ msg, e = ValueError msg).
Proof.
  unfold binary_container, getitem.
  change (columns (select_binary data ib.2)) with (columns data).
  destruct (has_column (columns data) col_Runtime); simpl.
  - destruct ib.2 as [s|]; simpl.
    + unfold plt.bar_container. destruct (plt.broadcast _ _); [done|].
      intros [= <-]. right. right. by eexists.
    + intros [= <-]. right. by left.
  - intros [= <-]. by left.
Qed.

Lemma run_until_raise_Some {A B} (f : A → result B) l bs e :
  run_until_raise f l = (bs, Some e) → ∃ a, a ∈ l ∧ f a = Raise e.
Proof.
  revert bs. induction l as [|a l IH]; intros bs; simpl; [done|].
  destruct (f a) as [b|e'] eqn:Ha.
  - destruct (run_until_raise f l) as [bs' e''] eqn:Hl. intros [= <- ->].
    destruct (IH _ eq_refl) as (a' & Ha' & Hf). exists a'. split; [by right|done].
  - intros [= <- <-]. exists a. split; [left|done].
Qed.

Lemma collect_Path_Raise {B} (g : string → B) (l : list (option string)) e :
  collect (fun b => g <$> pathlib.Path b) l = Raise e →
  e = TypeError ∧ None ∈ l.
Proof.
  induction l as [|[s|] l IH]; simpl; [done| |].
  - destruct (collect _ l) as [ys|e']; simpl; [done|].
    intros [= <-]. destruct (IH eq_refl) as [-> Hin]. split; [done|by right].
  - intros [= <-]. split; [done|left].
Qed.

Lemma truediv_Raise (x : Q) (n : nat) e :
  truediv x n = Raise e → e = ZeroDivisionError ∧ n = 0%nat.
Proof. destruct n; [|done]. by intros [= <-]. Qed.

Lemma elem_of_enumerate {A} (l : list A) i x :
  (i, x) ∈ enumerate l → l !! i = Some x.
Proof.
  unfold enumerate. intros [j Hj]%list_elem_of_lookup.
  rewrite lookup_zip_with in Hj.
  destruct (seq 0 (length l) !! j) as [i'|] eqn:Hi; simpl in Hj; [|done].
  destruct (l !! j) as [x'|] eqn:Hx; simpl in Hj; [|done].
  injection Hj as <- <-. apply lookup_seq in Hi as [-> _]. done.
Qed.

(** The exceptions of [savefig]. *)
Lemma save_error_Some (w : World) p e :
  plt.save_error w p = Some e →
  ((∃ msg, e = ValueError msg) ∧ plt.image_format p ∉ plt.supported_filetypes)
  ∨ (e = FileWriteError (plt.image_path p) ∧
     plt.image_format p ∈ plt.supported_filetypes ∧
     writable w (plt.image_path p) = false).
Proof.
  unfold plt.save_error. case_bool_decide as Hfmt.
  - destruct (writable w _) eqn:Hw; [done|]. intros [= <-]. by right.
  - intros [= <-]. left. split; [by eexists|done].
Qed.

Lemma emitted_Raise output (w w' : World) e :
  emitted output w = (w', Raise e) →
  w' = w ∧ ∃ p, truthy output = Some p ∧ plt.save_error w p = Some e.
Proof.
  unfold emitted. destruct (truthy output) as [p|]; [|done].
  destruct (plt.save_error w p) as [e'|] eqn:Hsave; [|done].
  intros [= <- <-]. split; [done|]. by exists p.
Qed.

End ChartExceptions.

(** X7.  On a table that has the Benchmark File and Binary columns,
    [create_bar_chart] raises ZeroDivisionError exactly when the table has
    no row; it does so once the style is set and the figure is opened,
    before anything is drawn, written, displayed or printed. *)
Theorem create_bar_chart_ZeroDivisionError data output (w : World) :
  has_column (columns data) col_Benchmark_File = true →
  has_column (columns data) col_Binary = true →
  (rows data = [] →
   create_bar_chart data output w = (opened w, Raise ZeroDivisionError)) ∧
  ((create_bar_chart data output w).2 = Raise ZeroDivisionError →
   rows data = []).
Proof.
  intros H1 H2. rewrite create_bar_chart_unfold.
  unfold chart_run, chart_plan, getitem. rewrite H1, H2. simpl. split.
  - by intros ->.
  - destruct (truediv _ _) as [bw|e] eqn:Hbw; simpl.
    + destruct (run_until_raise _ _) as [cs [e|]] eqn:Hrun; simpl.
      * intros [= ->].
        apply run_until_raise_Some in Hrun as (ib & _ & Hib).
        apply binary_container_Raise in Hib as [[? _]|[[? _]|[? ?]]]; done.
      * destruct (collect _ _) as [tl|e] eqn:Htl; simpl.
        -- destruct (emitted _ _) as [w' [[]|e]] eqn:Hem; simpl; [done|].
           intros [= ->]. apply emitted_Raise in Hem as (_ & p & _ & Hsave).
           apply save_error_Some in Hsave as [[[? ?] _]|[? _]]; done.
        -- intros [= ->]. by apply collect_Path_Raise in Htl as [? _].
    + intros _. apply truediv_Raise in Hbw as [_ Hn].
      apply length_zero_iff_nil in Hn. apply unique_nil_inv in Hn.
      by apply fmap_nil_inv in Hn.
Qed.

Lemma create_bar_chart_ZeroDivisionError_witness :
  has_column (columns table_empty) col_Benchmark_File = true ∧
  has_column (columns table_empty) col_Binary = true ∧
  create_bar_chart table_empty (Some "out.png") initial_world =
    (opened initial_world, Raise ZeroDivisionError).
Proof.
  split; [reflexivity|]. split; [reflexivity|].
  exact (proj1 (create_bar_chart_ZeroDivisionError table_empty
                  (Some "out.png") initial_world eq_refl eq_refl) eq_refl).
Defined.

(** X8.  On a table with rows that lacks one of the three required columns,
    [create_bar_chart] raises the KeyError of a required column the table
    lacks, before any bar is drawn: the figure it opened stays empty and
    nothing is written, displayed or printed. *)
Theorem create_bar_chart_missing_column data output (w : World) (c : string) :
  c ∈ required_columns → has_column (columns data) c = false →
  rows data ≠ [] →
  ∃ c', create_bar_chart data output w = (opened w, Raise (KeyError c')) ∧
        c' ∈ required_columns ∧ has_column (columns data) c' = false.
Proof.
  intros Hc Hno Hrows. rewrite create_bar_chart_unfold.
  unfold chart_run, chart_plan, getitem.
  destruct (has_column (columns data) col_Benchmark_File) eqn:H1; simpl.
  2:{ exists col_Benchmark_File. split; [done|]. split; [|done].
      unfold required_columns. set_solver. }
  destruct (has_column (columns data) col_Binary) eqn:H2; simpl.
  2:{ exists col_Binary. split; [done|]. split; [|done].
      unfold required_columns. set_solver. }
  assert (has_column (columns data) col_Runtime = false) as H3.
  { unfold required_columns in Hc.
    repeat (apply elem_of_cons in Hc as [->|Hc]); try congruence.
    by apply elem_of_nil in Hc. }
  destruct (unique (map Binary (rows data))) as [|b0 bs] eqn:Hu.
  { apply unique_nil_inv in Hu. by apply fmap_nil_inv in Hu. }
  cbn [length truediv mbind result_bind]. unfold enumerate.
  cbn [length seq zip zip_with run_until_raise].
  unfold binary_container at 1, getitem.
  change (columns (select_binary data (0%nat, b0).2)) with (columns data).
  rewrite H3. simpl. exists col_Runtime. split; [|split; [|done]].
  - rewrite add_containers_nil; done.
  - unfold required_columns. set_solver.
Qed.

Lemma create_bar_chart_missing_column_witness :
  ∃ c', create_bar_chart file_C None initial_world =
          (opened initial_world, Raise (KeyError c')) ∧
        c' ∈ required_columns ∧ has_column (columns file_C) c' = false.
Proof.
  refine (create_bar_chart_missing_column file_C None initial_world
            col_Runtime _ eq_refl _).
  - do 2 apply list_elem_of_further. apply list_elem_of_here.
  - discriminate.
Defined.

(** ** The chart of an aggregated table *)

Section AggregatedChart.



Lemma chart_plan_aggregated rs (ks : list key) :
  ks ≠ [] →
  chart_plan {| columns := required_columns; rows := map (group_row rs) ks |} =
  Ok (map Some (unique (map snd ks)), map Some (unique (map fst ks)),
      ((8 # 10) / inject_Z (Z.of_nat (length (unique (map fst ks)))))%Q).
Proof.
  intros Hne. unfold chart_plan, getitem. cbn [columns rows].
  change (has_column required_columns col_Benchmark_File) with true.
  change (has_column required_columns col_Binary) with true.
  cbn [fmap result_fmap mbind result_bind].
  rewrite Binary_group_rows, Benchmark_File_group_rows.
  rewrite !(unique_fmap Some), length_map.
  destruct (unique (map fst ks)) as [|b bs] eqn:Hu; [|done].
  apply unique_nil_inv, fmap_nil_inv in Hu. done.
Qed.


End AggregatedChart.



(** ** The number of bars *)

Section BarCount.

Lemma chart_of_emitted output (w w' : World) :
  emitted output w = (w', Ok tt) → figures w ≠ [] →
  chart_of w' output = plt.gcf w ∧ style w' = style w ∧ palette w' = palette w.
Proof.
  intros Hem Hw. unfold chart_of. unfold emitted in Hem.
  destruct (truthy output) as [p|].
  - destruct (plt.save_error w p); [done|]. injection Hem as <-.
    cbn [written saved style palette]. by rewrite last_snoc.
  - injection Hem as <-. cbn [displayed shown style palette].
    rewrite last_snoc. unfold plt.gcf.
    by destruct (figures w).
Qed.

Lemma length_enumerate {A} (l : list A) : length (enumerate l) = length l.
Proof. by rewrite <-(snd_enumerate l) at 2; rewrite length_map. Qed.

(** [plt.bar] with as many positions as there are heights, or with a single
    height, draws one bar per position. *)
Lemma bar_container_length xs hs bw lbl c :
  plt.bar_container xs hs bw lbl = Ok c →
  (1 ≤ length hs ≤ length xs)%nat →
  length (patches c) = length xs.
Proof.
  unfold plt.bar_container, plt.broadcast. intros Hc [H1 Hle].
  case_bool_decide as Hnm.
  - injection Hc as <-. cbn [patches].
    rewrite !broadcast_to_same by done.
    rewrite length_zip_with. lia.
  - case_bool_decide as Hn; [lia|]. case_bool_decide as Hm; [|done].
    injection Hc as <-. cbn [patches].
    rewrite (broadcast_to_same _ xs) by done.
    destruct hs as [|h [|h' hs]]; try done. cbn [plt.broadcast_to].
    rewrite length_zip_with, length_replicate. lia.
Qed.

(** In an ascending list of keys a binary has at least one benchmark and no
    more benchmarks than there are. *)
Lemma block_length (ks : list key) (b : string) :
  StronglySorted key_lt ks → b ∈ map fst ks →
  (1 ≤ length (filter (fun k => k.1 = b) ks) ≤ length (unique (map snd ks)))%nat.
Proof.
  intros Hs (k & -> & Hk)%list_elem_of_fmap. split.
  - assert (k ∈ filter (fun k' : key => k'.1 = k.1) ks) as Hin
      by by apply list_elem_of_filter.
    destruct (filter _ ks); [by apply elem_of_nil in Hin|simpl; lia].
  - rewrite <-(length_map snd (filter _ ks)).
    apply submseteq_length, NoDup_submseteq.
    + apply (strictly_sorted_NoDup string_lt string_lt_irrefl).
      apply (sorted_block_snd k.1); [by apply strictly_sorted_filter|].
      apply Forall_forall. by intros k' [? _]%list_elem_of_filter.
    + intros m (k' & -> & [_ Hk']%list_elem_of_filter)%list_elem_of_fmap.
      apply elem_of_unique. by apply list_elem_of_fmap_2.
Qed.

Lemma binary_container_aggregated_length rs (ks : list key) bms bw i b c :
  StronglySorted key_lt ks → b ∈ map fst ks →
  length bms = length (unique (map snd ks)) →
  binary_container {| columns := required_columns;
                      rows := map (group_row rs) ks |} bms bw (i, Some b) = Ok c →
  length (patches c) = length bms.
Proof.
  intros Hs Hb Hlen. unfold binary_container, getitem.
  change (has_column (columns (select_binary _ _)) col_Runtime) with true.
  cbn [fmap result_fmap mbind result_bind snd fst pathlib.Path].
  rewrite select_binary_group_rows. intros Hc.
  apply bar_container_length in Hc.
  - by rewrite Hc, length_map, length_seq.
  - rewrite !length_map, length_seq, Hlen. by apply block_length.
Qed.

End BarCount.

(** X10.  The chart of an aggregated table, whenever it is drawn, has one
    container of bars per distinct binary, and every container has one bar
    per distinct benchmark, also for a binary that has not run every
    benchmark. *)
Theorem create_bar_chart_bar_count fs files R output (w w' : World) :
  process_benchmark_data fs files = Ok R →
  create_bar_chart R output w = (w', Ok tt) →
  length (containers (chart_of w' output)) =
    length (unique (map Binary (rows R))) ∧
  Forall (fun c => length (patches c) =
                   length (unique (map Benchmark_File (rows R))))
    (containers (chart_of w' output)).
Proof.
  intros [Hc Hr]%process_benchmark_data_rows. rewrite create_bar_chart_unfold.
  destruct R as [cols rws]. simpl in Hc, Hr. subst cols. cbn [rows].
  pose proof (sorted_uniques_sorted (omap row_key (input_rows fs files))) as Hs.
  set (rs := input_rows fs files) in *.
  remember (sorted_uniques (omap row_key rs)) as ks eqn:Eks. clear Eks.
  subst rws. destruct (decide (ks = [])) as [->|Hne]; [done|].
  unfold chart_run. rewrite chart_plan_aggregated by done.
  rewrite Binary_group_rows, Benchmark_File_group_rows, !(unique_fmap Some).
  destruct (run_until_raise _ _) as [cs [e|]] eqn:Hrun; [done|].
  rewrite collect_Path_Some. intros [-> _]%chart_of_emitted; [|done].
  change (containers (plt.gcf (set_current ?f ?w1))) with (containers f).
  change (containers (finished ?t ?f)) with (containers f).
  rewrite (containers_add_containers cs (opened w)).
  change (containers (plt.gcf (opened w))) with (@nil BarContainer). cbn [app].
  apply run_until_raise_None, collect_Ok in Hrun. split.
  - apply Forall2_length in Hrun. by rewrite <-Hrun, length_enumerate.
  - apply Forall_forall. intros c Hin.
    apply list_elem_of_lookup in Hin as [i Hi].
    destruct (Forall2_lookup_r _ _ _ _ _ Hrun Hi) as ([i' ob] & Hib & Hc).
    apply list_elem_of_lookup_2, elem_of_enumerate in Hib.
    rewrite list_lookup_fmap in Hib.
    destruct (unique (map fst ks) !! i') as [b|] eqn:Hb; [|done].
    injection Hib as <-.
    apply binary_container_aggregated_length in Hc.
    + by rewrite Hc, length_map, length_fmap.
    + done.
    + eapply elem_of_unique, list_elem_of_lookup_2, Hb.
    + by rewrite length_map.
Qed.

Lemma create_bar_chart_bar_count_witness :
  ∃ w', create_bar_chart table_incomplete None initial_world = (w', Ok tt) ∧
        length (containers (chart_of w' None)) = 2%nat ∧
        Forall (fun c => length (patches c) = 2%nat)
          (containers (chart_of w' None)).
Proof.
  eexists. split; [vm_compute; reflexivity|].
  lazymatch goal with
  | |- length (containers (chart_of ?W None)) = _ ∧ _ =>
      exact (create_bar_chart_bar_count chart_fs ["e.csv"] table_incomplete None
               initial_world W ltac:(vm_compute; reflexivity)
               ltac:(vm_compute; reflexivity))
  end.
Defined.

(** ** The size of the aggregated table *)

(** X11.  The aggregated table has one row per distinct pair of the rows
    read, and so never more rows than were read. *)
Theorem process_benchmark_data_row_count fs files R :
  process_benchmark_data fs files = Ok R →
  length (rows R) = length (remove_dups (input_keys fs files)) ∧
  (length (rows R) ≤ length (input_rows fs files))%nat.
Proof.
  intros [_ HR]%process_benchmark_data_rows. rewrite HR, length_map.
  fold (input_keys fs files).
  assert (length (sorted_uniques (input_keys fs files)) =
          length (remove_dups (input_keys fs files))) as Hlen.
  { apply Permutation_length, NoDup_Permutation.
    - apply sorted_uniques_NoDup.
    - apply NoDup_remove_dups.
    - intros k. by rewrite elem_of_sorted_uniques, elem_of_remove_dups. }
  split; [done|]. clear HR Hlen. trans (length (input_keys fs files)).
  - apply submseteq_length, NoDup_submseteq; [apply sorted_uniques_NoDup|].
    intros k. by rewrite elem_of_sorted_uniques.
  - unfold input_keys. induction (input_rows fs files) as [|r rs IH]; [done|].
    rewrite omap_cons. destruct (row_key r); simpl; lia.
Qed.

Lemma process_benchmark_data_row_count_witness :
  ∃ R, process_benchmark_data sample_fs ["a.csv"; "b.csv"] = Ok R ∧
       length (rows R) = length (remove_dups (input_keys sample_fs ["a.csv"; "b.csv"])) ∧
       (length (rows R) ≤ length (input_rows sample_fs ["a.csv"; "b.csv"]))%nat.
Proof.
  eexists. split; [vm_compute; reflexivity|].
  exact (process_benchmark_data_row_count sample_fs ["a.csv"; "b.csv"] _
           ltac:(vm_compute; reflexivity)).
Defined.

(** ** The labels of paths *)

Section PathLabels.

Lemma length_append (s t : string) :
  String.length (s +:+ t) = (String.length s + String.length t)%nat.
Proof. induction s as [|a s IH]; [done|]. rewrite append_String. simpl. lia. Qed.

Lemma has_sep_append (s t : string) :
  has_sep (s +:+ t) = has_sep s || has_sep t.
Proof.
  induction s as [|a s IH]; [done|]. rewrite append_String. simpl.
  by rewrite IH, orb_assoc.
Qed.

Lemma rfind_last_dot (base ext : string) :
  pathlib.rfind "." ext = None →
  pathlib.rfind "." (base +:+ String "." ext) = Some (String.length base).
Proof.
  intros Hext. induction base as [|a base IH].
  - change ("" +:+ String "." ext) with (String "." ext). simpl. by rewrite Hext.
  - rewrite append_String. simpl. by rewrite IH.
Qed.

Lemma substring_prefix (s t : string) :
  String.substring 0 (String.length s) (s +:+ t) = s.
Proof.
  induction s as [|a s IH].
  - by destruct t.
  - rewrite append_String. simpl. by rewrite IH.
Qed.

End PathLabels.

(** X13.  The labels of a path [dir/base.ext], where [base] is not empty
    and holds no separator and [ext] is not empty and holds neither a
    separator nor a dot: the label of a binary, its name, is [base.ext];
    the label of a benchmark, its stem, is [base], also when [base] itself
    holds dots. *)
Theorem labels_of_path (dir base ext : string) :
  base ≠ "" → has_sep base = false →
  ext ≠ "" → has_sep ext = false → pathlib.rfind "." ext = None →
  pathlib.name (dir +:+ String "/" (base +:+ String "." ext)) =
    base +:+ String "." ext ∧
  pathlib.stem (dir +:+ String "/" (base +:+ String "." ext)) = base.
Proof.
  intros Hbase Hsep Hext Hsepx Hdot.
  assert (pathlib.name (dir +:+ String "/" (base +:+ String "." ext)) =
          base +:+ String "." ext) as Hname.
  { apply name_strips_directory.
    - rewrite has_sep_append, Hsep. simpl. exact Hsepx.
    - by destruct base.
    - destruct base as [|a [|b base]]; [done| |done].
      rewrite append_String. by destruct ext. }
  split; [done|]. unfold pathlib.stem. rewrite Hname, rfind_last_dot by done.
  unfold pathlib.splits_suffix.
  rewrite length_append. cbn [String.length].
  rewrite bool_decide_true by (destruct base; [done|simpl; lia]).
  rewrite bool_decide_true by (destruct ext; [done|simpl; lia]).
  cbn [andb]. apply substring_prefix.
Qed.

Lemma labels_of_path_witness :
  pathlib.name ("bench" +:+ String "/" ("fib.v2" +:+ String "." "lox")) =
    "fib.v2" +:+ String "." "lox" ∧
  pathlib.stem ("bench" +:+ String "/" ("fib.v2" +:+ String "." "lox")) = "fib.v2".
Proof.
  apply (labels_of_path "bench" "fib.v2" "lox"); [done|reflexivity|done|
    reflexivity|reflexivity].
Defined.

(** ** The figure of the chart *)

(** X14.  A chart that is written or displayed is drawn with the style
    "seaborn-v0_8" and the palette "husl" on a figure of 12 by 6 inches;
    its axes are labelled "Benchmark" and "Average Runtime (seconds)", its
    title is "Benchmark Performance Comparison", its tick labels are
    rotated by 45 degrees and its layout is tightened. *)
Theorem create_bar_chart_figure data output (w w' : World) :
  create_bar_chart data output w = (w', Ok tt) →
  style w' = Some "seaborn-v0_8" ∧ palette w' = Some "husl" ∧
  figsize (chart_of w' output) = (12, 6)%Z ∧
  fig_xlabel (chart_of w' output) = "Benchmark" ∧
  fig_ylabel (chart_of w' output) = "Average Runtime (seconds)" ∧
  fig_title (chart_of w' output) = "Benchmark Performance Comparison" ∧
  fig_xticks_rotation (chart_of w' output) = 45%Z ∧
  fig_tight (chart_of w' output) = true.
Proof.
  rewrite create_bar_chart_unfold. unfold chart_run.
  destruct (chart_plan data) as [[[benchmarks binaries] bar_width]|e]; [|done].
  destruct (run_until_raise _ _) as [cs [e|]]; [done|].
  destruct (collect _ benchmarks) as [ticklabels|e]; [|done].
  intros (-> & -> & ->)%chart_of_emitted; [|done].
  split_and!; try done.
  change (figsize (plt.gcf (set_current ?f ?w1))) with (figsize f).
  change (figsize (finished ?t ?f)) with (figsize f).
  unfold add_containers, opened. cbn [plt.gcf figures].
  induction cs as [|c cs IH] using rev_ind; [done|].
  by rewrite foldl_app.
Qed.

Lemma create_bar_chart_figure_witness :
  ∃ w', create_bar_chart table_grid (Some "out.png") initial_world = (w', Ok tt) ∧
        figsize (chart_of w' (Some "out.png")) = (12, 6)%Z ∧
        fig_title (chart_of w' (Some "out.png")) =
          "Benchmark Performance Comparison".
Proof.
  eexists. split; [vm_compute; reflexivity|].
  lazymatch goal with
  | |- figsize (chart_of ?W _) = _ ∧ _ =>
      pose proof (create_bar_chart_figure table_grid (Some "out.png")
                    initial_world W ltac:(vm_compute; reflexivity))
        as (_ & _ & Hsize & _ & _ & Htitle & _)
  end.
  split; [exact Hsize|exact Htitle].
Defined.
